(** * QuantumEncryptx360: the client-side request / status / gating contract

    A shallow embedding of the browser front end of the repository:

    - [Config]  : [frontend/src/config.js], the base-URL normalisation;
    - [Js]      : the fragment of JavaScript values the handlers inspect;
    - [Model]   : the [useState] cells of [App], requests and responses,
                  and handlers as tasks that change the state, stop at
                  each [await], may throw, and leave a trace of what
                  they did; the run of one handler on its own, and the
                  run of two handlers that overlap;
    - [Api]     : [frontend/src/api.js], the four request helpers;
    - [App]     : the two revisions of [App.jsx] (direct [fetch] calls, and
                  calls through the helpers of [api.js]);
    - [View]    : [Visualizer.jsx], [Encryptor.jsx], [Decryptor.jsx],
                  [Button.jsx] and [AnimatedCard.jsx], as far as they decide
                  the headline status and which control is enabled;
    - [Cards]   : [SessionManager.jsx] and the local state of the cards.

    JavaScript strings are modelled as [string] (bytes of the UTF-8
    encoding); every character the code compares against is ASCII.
    State updates take effect in the order the setters are called; the
    calls of [console.log] and [console.error] are left out. *)

From Stdlib Require Import String Ascii List Bool ZArith Lia DecimalString.
Import ListNotations.

Local Open Scope string_scope.

(* ------------------------------------------------------------------ *)
(** ** config.js *)

Module Config.

(** The character ['/']. *)
Definition slash : ascii := "/"%char.

Definition is_slash (c : ascii) : bool := Ascii.eqb c slash.

(** ASCII lower-casing; it is what the [i] flag of a regular expression
    without the [u] flag amounts to on the letters of ["/api/v1"]: a
    character outside ASCII never folds onto an ASCII letter. *)
Definition lower (c : ascii) : ascii :=
  let n := nat_of_ascii c in
  if (65 <=? n)%nat && (n <=? 90)%nat then ascii_of_nat (n + 32) else c.

Fixpoint lower_string (s : string) : string :=
  match s with
  | EmptyString => EmptyString
  | String c r => String (lower c) (lower_string r)
  end.

(** [s.replace(/\/+$/, "")]: the only match of [\/+$] is the maximal run
    of slashes that ends the string, so the run is removed. *)
Fixpoint strip_trailing_slashes (s : string) : string :=
  match s with
  | EmptyString => EmptyString
  | String c r =>
      match strip_trailing_slashes r with
      | EmptyString => if is_slash c then EmptyString else String c EmptyString
      | r' => String c r'
      end
  end.

(** The text of the second pattern, [/\/api\/v1$/i]. *)
Definition api_prefix : string := "/api/v1".

(** Does the whole of [s] match [\/api\/v1] under the [i] flag? *)
Definition matches_api_prefix (s : string) : bool :=
  String.eqb (lower_string s) api_prefix.

(** [s.replace(/\/api\/v1$/i, "")]: the pattern is anchored at the end, so
    the match, if any, is the suffix of length seven. *)
Fixpoint strip_api_prefix (s : string) : string :=
  match s with
  | EmptyString => EmptyString
  | String c r =>
      if matches_api_prefix s then EmptyString
      else String c (strip_api_prefix r)
  end.

(** The two [replace] calls of config.js, in their order. *)
Definition normalize (raw : string) : string :=
  strip_api_prefix (strip_trailing_slashes raw).

Definition default_root : string := "http://localhost:8000".

(** [import.meta.env.VITE_API_URL || "http://localhost:8000"]: an unset
    and an empty variable are both falsy. *)
Definition raw (env : option string) : string :=
  match env with
  | None => default_root
  | Some EmptyString => default_root
  | Some s => s
  end.

Definition API_URL (env : option string) : string := normalize (raw env).

(** Suffix tests used to say when a root is canonical. *)
Fixpoint ends_with_slash (s : string) : bool :=
  match s with
  | EmptyString => false
  | String c EmptyString => is_slash c
  | String _ r => ends_with_slash r
  end.

Fixpoint ends_with_api_prefix (s : string) : bool :=
  match s with
  | EmptyString => false
  | String _ r => matches_api_prefix s || ends_with_api_prefix r
  end.

(** [k] slashes. *)
Fixpoint slashes (k : nat) : string :=
  match k with
  | O => EmptyString
  | S k' => String slash (slashes k')
  end.

(** A root on which neither [replace] finds a match. *)
Definition canonical (s : string) : bool :=
  negb (ends_with_slash s) && negb (ends_with_api_prefix s).

End Config.

(* ------------------------------------------------------------------ *)
(** ** JavaScript values *)

Module Js.

(** The values the handlers receive and inspect: what [JSON.parse]
    returns, the objects the code throws, and [undefined].  [JNum n] is
    the number [n] for a safe integer [n] (HTTP status codes, integer
    JSON literals of magnitude below [2^53]); any other number is a
    [JFloat], given by the text JavaScript prints for it ([1.5],
    [1e+21]).  Such a number is neither zero nor NaN. *)
#[warnings="-register-all"] Inductive value : Type :=
| JUndefined
| JNull
| JBool (b : bool)
| JNum (n : Z)
| JFloat (printed : string)
| JStr (s : string)
| JArr (items : list value)
| JObj (fields : list (string * value)).

(** ToBoolean, as used by [||], [&&], [?:] and [if]. *)
Definition truthy (v : value) : bool :=
  match v with
  | JUndefined | JNull => false
  | JBool b => b
  | JNum n => negb (Z.eqb n 0)
  | JFloat _ => true
  | JStr s => negb (String.eqb s "")
  | JArr _ | JObj _ => true
  end.

(** [a || b] *)
Definition or_else (a b : value) : value := if truthy a then a else b.

(** [a && b] *)
Definition and_then (a b : value) : value := if truthy a then b else a.

Fixpoint assoc (k : string) (fields : list (string * value)) : option value :=
  match fields with
  | [] => None
  | (k', v) :: rest => if String.eqb k k' then Some v else assoc k rest
  end.

(** [v.k] for the property names this program reads ([detail],
    [plaintext], [status], [body], [text], [message]); none of them is a
    property of a prototype.  [None] is the TypeError of reading a
    property of [null] or [undefined]. *)
Definition getProp (v : value) (k : string) : option value :=
  match v with
  | JUndefined | JNull => None
  | JObj fields =>
      match assoc k fields with
      | Some x => Some x
      | None => Some JUndefined
      end
  | _ => Some JUndefined
  end.


Definition string_of_Z (n : Z) : string :=
  NilZero.string_of_int (Z.to_int n).

Definition string_of_bool (b : bool) : string :=
  if b then "true" else "false".



(** ToString, as used by template literals and [new Error(x)], for the
    values [JSON.parse] returns and the object literals of the program.
    [None] is the TypeError of an object that cannot be converted to a
    primitive: one with an own property [toString], which is not
    callable since it came out of JSON, so that neither it nor the
    inherited [valueOf] yields a primitive.  The elements of an array
    are converted in turn and joined by commas, [null] and [undefined]
    as the empty string. *)
Fixpoint toString (v : value) : option string :=
  match v with
  | JUndefined => Some "undefined"
  | JNull => Some "null"
  | JBool b => Some (string_of_bool b)
  | JNum n => Some (string_of_Z n)
  | JFloat printed => Some printed
  | JStr s => Some s
  | JArr items =>
      (fix join (l : list value) : option string :=
         match l with
         | [] => Some ""
         | x :: rest =>
             let sx := match x with
                       | JUndefined | JNull => Some ""
                       | _ => toString x
                       end in
             match sx, rest with
             | None, _ => None
             | Some a, [] => Some a
             | Some a, _ =>
                 match join rest with
                 | Some b => Some (a ++ "," ++ b)
                 | None => None
                 end
             end
         end) items
  | JObj fields =>
      match assoc "toString" fields with
      | Some _ => None
      | None => Some "[object Object]"
      end
  end.

(** An [Error] instance, as far as the handlers can tell: its own
    property [message]. *)
Definition Error (msg : string) : value := JObj [("message", JStr msg)].

End Js.

(* ------------------------------------------------------------------ *)
(** ** The UI state of App.jsx *)

Module Model.
Import Js.

(** The five literals stored in the [status] and [type] fields. *)
Inductive Status : Type := idle | loading | success | error | eavesdropper.

Definition Status_eqb (a b : Status) : bool :=
  match a, b with
  | idle, idle | loading, loading | success, success
  | error, error | eavesdropper, eavesdropper => true
  | _, _ => false
  end.

(** [{ status, type, message }]; the objects [getConnectionStatus]
    builds have no [type]. *)
Record ProcessStatus : Type := mkStatus {
  status : Status;
  type : option Status;
  message : value
}.

(** The literal [{ status: s, type: s, message: m }]. *)
Definition entry (s : Status) (m : string) : ProcessStatus :=
  mkStatus s (Some s) (JStr m).

Record Processes : Type := mkProcesses {
  session : ProcessStatus;
  encrypt : ProcessStatus;
  decrypt : ProcessStatus
}.

(** The argument of [resetStatus]. *)
Inductive Pipeline : Type := Session | Encrypt | Decrypt.

Definition Pipeline_eqb (a b : Pipeline) : bool :=
  match a, b with
  | Session, Session | Encrypt, Encrypt | Decrypt, Decrypt => true
  | _, _ => false
  end.

Definition pipeline (p : Pipeline) (ps : Processes) : ProcessStatus :=
  match p with
  | Session => session ps
  | Encrypt => encrypt ps
  | Decrypt => decrypt ps
  end.

(** [{ ...ps, session: x }] and its two siblings. *)
Definition with_session (x : ProcessStatus) (ps : Processes) : Processes :=
  mkProcesses x (encrypt ps) (decrypt ps).
Definition with_encrypt (x : ProcessStatus) (ps : Processes) : Processes :=
  mkProcesses (session ps) x (decrypt ps).
Definition with_decrypt (x : ProcessStatus) (ps : Processes) : Processes :=
  mkProcesses (session ps) (encrypt ps) x.

Definition INITIAL_PROCESS_STATUS : Processes :=
  mkProcesses (entry idle "Waiting for key generation...")
              (entry idle "Waiting for file...")
              (entry idle "Waiting for components...").

(** The text fields of the Decryptor card. *)
Record Components : Type := mkComponents {
  nonce : string;
  tag : string;
  ciphertext : string
}.

Record File : Type := mkFile {
  file_name : string;
  file_content : string
}.

(** The [useState] cells of [App]. *)
Record AppState : Type := mkApp {
  currentUser : string;
  peerUser : string;
  isLoading : bool;
  processStatus : Processes;
  cryptoComponents : value;
  decryptedPreview : value
}.

Definition empty_components : value :=
  JObj [("nonce", JStr ""); ("tag", JStr ""); ("ciphertext", JStr "")].

(** The state [App] mounts with. *)
Definition initial_state : AppState :=
  mkApp "Alice" "Bob" false INITIAL_PROCESS_STATUS empty_components (JStr "").

(** *** Requests and responses *)

Inductive FormEntry : Type :=
| FormText (s : string)
| FormFile (f : File) (filename : option string).

Definition FormData : Type := list (string * FormEntry).

(** [form.append(name, value)] *)
Definition append (name : string) (v : FormEntry) (form : FormData) : FormData :=
  (form ++ [(name, v)])%list.

Record Request : Type := mkRequest {
  url : string;
  method : string;
  body : FormData
}.

(** [response.status], an integer from 0 to 65535, and the text of the
    body. *)
Record Response : Type := mkResponse {
  res_status : Z;
  res_text : string
}.

(** [response.ok] *)
Definition ok (r : Response) : bool :=
  (200 <=? res_status r)%Z && (res_status r <=? 299)%Z.

(** What [fetch] resolves to: a response, or a rejection with a
    TypeError when no response arrives. *)
Inductive FetchResult : Type :=
| Responded (r : Response)
| NetworkFailure (msg : string).

(** What the browser and the build supply. *)
Record Platform : Type := mkPlatform {
  (** [JSON.parse]; [inr m] is a SyntaxError with message [m]. *)
  JSON_parse : string -> value + string;
  (** the server behind [fetch] *)
  network : Request -> FetchResult;
  (** the message of the TypeError raised by reading property [k] of
      [null] *)
  null_property_message : string -> string;
  (** [import.meta.env.VITE_API_URL] *)
  VITE_API_URL : option string;
  (** the message of the TypeError raised when an object cannot be
      converted to a primitive *)
  primitive_message : string
}.

(** *** Handlers as tasks that change the state, wait and may throw *)

(** What a handler does besides changing the state, in order: the
    waits, the requests (with the state on screen when each is issued),
    every call of [setProcessStatus] (with the statuses it leaves), the
    alerts and the files saved. *)
Inductive Event : Type :=
| EvSleep (ms : Z)
| EvFetch (req : Request) (at_issue : AppState)
| EvStatus (now : Processes)
| EvAlert (msg : string)
| EvSave (filename : string) (content : string).

Record World : Type := mkWorld {
  state : AppState;
  trace : list Event
}.

Inductive Outcome (A : Type) : Type :=
| Returned (a : A)
| Thrown (e : value).
Arguments Returned {A} a.
Arguments Thrown {A} e.

(** An [async] function runs until it returns, throws, or reaches an
    [await].  At an [await] it gives the world back as it has left it
    and stays suspended; what is awaited settles later, and the function
    then goes on from the world as it is at that time, which other
    handlers may have changed in between. *)
Inductive Task (A : Type) : Type :=
| Finished (o : Outcome A) (w : World)
| Suspended (at_await : World) (resume : World -> Task A).
Arguments Finished {A} o w.
Arguments Suspended {A} at_await resume.

Definition M (A : Type) : Type := World -> Task A.

Definition ret {A} (a : A) : M A := fun w => Finished (Returned a) w.

Definition throw {A} (e : value) : M A := fun w => Finished (Thrown e) w.

(** The rest [k] of the function, after the task [t]. *)
Fixpoint and_then_run {A B} (t : Task A) (k : A -> M B) : Task B :=
  match t with
  | Finished (Returned a) w => k a w
  | Finished (Thrown e) w => Finished (Thrown e) w
  | Suspended w resume => Suspended w (fun w' => and_then_run (resume w') k)
  end.

Definition bind {A B} (m : M A) (k : A -> M B) : M B :=
  fun w => and_then_run (m w) k.

Fixpoint catching {A} (t : Task A) (handler : value -> M A) : Task A :=
  match t with
  | Finished (Returned a) w => Finished (Returned a) w
  | Finished (Thrown e) w => handler e w
  | Suspended w resume => Suspended w (fun w' => catching (resume w') handler)
  end.

(** [try { m } catch (err) { handler err }] *)
Definition try_catch {A} (m : M A) (handler : value -> M A) : M A :=
  fun w => catching (m w) handler.

(** The end of a [finally] block entered with outcome [o]. *)
Fixpoint settle {A} (cleanup : Task unit) (o : Outcome A) : Task A :=
  match cleanup with
  | Finished (Returned _) w => Finished o w
  | Finished (Thrown e) w => Finished (Thrown e) w
  | Suspended w resume => Suspended w (fun w' => settle (resume w') o)
  end.

Fixpoint finishing {A} (t : Task A) (cleanup : M unit) : Task A :=
  match t with
  | Finished o w => settle (cleanup w) o
  | Suspended w resume => Suspended w (fun w' => finishing (resume w') cleanup)
  end.

(** [try { m } finally { cleanup }] *)
Definition finally {A} (m : M A) (cleanup : M unit) : M A :=
  fun w => finishing (m w) cleanup.

Definition get_state : M AppState :=
  fun w => Finished (Returned (state w)) w.

Definition modify (f : AppState -> AppState) : M unit :=
  fun w => Finished (Returned tt) (mkWorld (f (state w)) (trace w)).

Definition emit (ev : AppState -> Event) : M unit :=
  fun w => Finished (Returned tt)
             (mkWorld (state w) (trace w ++ [ev (state w)])%list).

(** The point of an [await]: the function stops here. *)
Definition await : M unit :=
  fun w => Suspended w (fun w' => Finished (Returned tt) w').

Declare Scope js_scope.
Delimit Scope js_scope with js.
Notation "x <- m ;; k" := (bind m (fun x => k))
  (at level 100, m at next level, right associativity) : js_scope.
Notation "m ;; k" := (bind m (fun _ => k))
  (at level 100, right associativity) : js_scope.

(** The state setters.  [setProcessStatus] takes an updater; passing an
    object is the constant updater. *)
Definition setProcessStatus (f : Processes -> Processes) : M unit :=
  bind (modify (fun st => mkApp (currentUser st) (peerUser st) (isLoading st)
                                (f (processStatus st))
                                (cryptoComponents st) (decryptedPreview st)))
       (fun _ => emit (fun st => EvStatus (processStatus st))).

Definition setDecryptedPreview (v : value) : M unit :=
  modify (fun st => mkApp (currentUser st) (peerUser st) (isLoading st)
                          (processStatus st) (cryptoComponents st) v).

Definition setCryptoComponents (v : value) : M unit :=
  modify (fun st => mkApp (currentUser st) (peerUser st) (isLoading st)
                          (processStatus st) v (decryptedPreview st)).

Definition setIsLoading (b : bool) : M unit :=
  modify (fun st => mkApp (currentUser st) (peerUser st) b
                          (processStatus st) (cryptoComponents st)
                          (decryptedPreview st)).

(** [await sleep(ms)] *)
Definition sleep (ms : Z) : M unit :=
  bind (emit (fun _ => EvSleep ms)) (fun _ => await).

Section WithPlatform.
Variable P : Platform.

(** [await fetch(url, { method: "POST", body: form })]: the request
    leaves, and the function waits for the answer. *)
Definition fetch (u : string) (form : FormData) : M Response :=
  let req := mkRequest u "POST" form in
  bind (emit (EvFetch req))
       (fun _ =>
          bind await
               (fun _ => match network P req with
                         | Responded r => ret r
                         | NetworkFailure msg => throw (Error msg)
                         end)).

(** [JSON.parse(text)] *)
Definition parse (text : string) : M value :=
  match JSON_parse P text with
  | inl v => ret v
  | inr msg => throw (Error msg)
  end.

(** [await response.json()] *)
Definition json (r : Response) : M value :=
  bind await (fun _ => parse (res_text r)).

(** [await res.text()], and [await response.blob()] *)
Definition body_text (r : Response) : M string :=
  bind await (fun _ => ret (res_text r)).

(** [v.k], throwing on [null] and [undefined] *)
Definition prop (v : value) (k : string) : M value :=
  match getProp v k with
  | Some x => ret x
  | None => throw (Error (null_property_message P k))
  end.

(** ToString of [x], throwing when [x] cannot be converted *)
Definition to_string (x : value) : M string :=
  match toString x with
  | Some s => ret s
  | None => throw (Error (primitive_message P))
  end.

(** [new Error(x)] for a defined [x] *)
Definition new_Error (x : value) : M value :=
  bind (to_string x) (fun s => ret (Error s)).

End WithPlatform.

(** A task run to its end with nothing else happening while it waits:
    each [await] is resumed from the world it left. *)
Fixpoint drive {A} (t : Task A) : Outcome A * World :=
  match t with
  | Finished o w => (o, w)
  | Suspended w resume => drive (resume w)
  end.

(** The run of a handler on its own, from state [st]. *)
Definition run {A} (m : M A) (st : AppState) : Outcome A * World :=
  drive (m (mkWorld st [])).

(** Two handlers on the same state.  [turns] says which of the two goes
    on next, from where it stands (its start, or the [await] it stopped
    at) to its next [await] or to its end; a turn given to a handler
    that has ended does nothing. *)
Inductive Turn : Type := First | Second.

Fixpoint overlap (turns : list Turn) (a b : option (M unit)) (w : World)
  : World :=
  match turns with
  | [] => w
  | First :: rest =>
      match a with
      | Some go =>
          match go w with
          | Finished _ w' => overlap rest None b w'
          | Suspended w' resume => overlap rest (Some resume) b w'
          end
      | None => overlap rest None b w
      end
  | Second :: rest =>
      match b with
      | Some go =>
          match go w with
          | Finished _ w' => overlap rest a None w'
          | Suspended w' resume => overlap rest a (Some resume) w'
          end
      | None => overlap rest a None w
      end
  end.

(** The world two handlers leave when run from [st] in the order
    [turns]. *)
Definition overlapped (turns : list Turn) (a b : M unit) (st : AppState)
  : World :=
  overlap turns (Some a) (Some b) (mkWorld st []).

(** The state and the events a handler leaves behind. *)
Definition final {A} (m : M A) (st : AppState) : AppState :=
  state (snd (run m st)).
Definition events {A} (m : M A) (st : AppState) : list Event :=
  trace (snd (run m st)).

Definition is_fetch (ev : Event) : bool :=
  match ev with EvFetch _ _ => true | _ => false end.

(** The events that follow the first request. *)
Fixpoint after_fetch (evs : list Event) : list Event :=
  match evs with
  | [] => []
  | ev :: rest => if is_fetch ev then rest else after_fetch rest
  end.

(** Is pipeline [p] shown as [loading] whenever a request is issued? *)
Definition loading_at_fetch (p : Pipeline) (evs : list Event) : bool :=
  forallb (fun ev =>
             match ev with
             | EvFetch _ at_issue =>
                 Status_eqb (status (pipeline p (processStatus at_issue))) loading
             | _ => true
             end) evs.

(** The statuses pipeline [p] is given by the calls of
    [setProcessStatus] in [evs]. *)
Definition status_updates (p : Pipeline) (evs : list Event) : list Status :=
  flat_map (fun ev =>
              match ev with
              | EvStatus now => [status (pipeline p now)]
              | _ => []
              end) evs.

(** [success], [error] and [eavesdropper] end an operation. *)
Definition terminal (s : Status) : bool :=
  match s with
  | success | error | eavesdropper => true
  | idle | loading => false
  end.


(** The requests issued, in order. *)
Definition requests {A} (m : M A) (st : AppState) : list Request :=
  flat_map (fun ev => match ev with EvFetch r _ => [r] | _ => [] end)
           (events m st).

(** One run of a handler of pipeline [p] from state [st]: one request is
    issued; the pipeline is shown as [loading] when it is issued; after
    it, [setProcessStatus] is called once, and it leaves the pipeline in a
    terminal state, which is the state the handler ends in. *)
Definition operation_ok (p : Pipeline) (m : M unit) (st : AppState) : Prop :=
  length (requests m st) = 1%nat
  /\ loading_at_fetch p (events m st) = true
  /\ exists s : Status,
       status_updates p (after_fetch (events m st)) = [s]
       /\ terminal s = true
       /\ status (pipeline p (processStatus (final m st))) = s.

(** The records pipeline [p] is given by the calls of
    [setProcessStatus] in [evs]. *)
Definition record_updates (p : Pipeline) (evs : list Event)
  : list ProcessStatus :=
  flat_map (fun ev =>
              match ev with
              | EvStatus now => [pipeline p now]
              | _ => []
              end) evs.

(** The record carries a message to show: a string, or some other
    truthy value. *)
Definition has_message (x : ProcessStatus) : bool :=
  match message x with
  | JStr _ => true
  | v => truthy v
  end.

(** One run of a handler of pipeline [p] on its own from state [st]:
    one request is issued; the pipeline is shown as [loading] when it is
    issued; after it, [setProcessStatus] is called once, and it gives
    the pipeline one record [x], in a terminal state and with a message,
    which is the record the handler ends with. *)
Definition operation_settles (p : Pipeline) (m : M unit) (st : AppState)
  : Prop :=
  length (requests m st) = 1%nat
  /\ loading_at_fetch p (events m st) = true
  /\ exists x : ProcessStatus,
       record_updates p (after_fetch (events m st)) = [x]
       /\ terminal (status x) = true
       /\ has_message x = true
       /\ pipeline p (processStatus (final m st)) = x.

(** Does pipeline [p] end the run with a message that is not empty? *)
Definition message_shown (p : Pipeline) (m : M unit) (st : AppState) : bool :=
  truthy (message (pipeline p (processStatus (final m st)))).

(** The states on screen at the requests of [evs], in order. *)
Definition fetch_snapshots (evs : list Event) : list AppState :=
  flat_map (fun ev =>
              match ev with
              | EvFetch _ at_issue => [at_issue]
              | _ => []
              end) evs.

End Model.

(* ------------------------------------------------------------------ *)
(** ** api.js *)

Module Api.
Import Js Model.
Local Open Scope js_scope.

Section WithPlatform.
Variable P : Platform.

(** [import { API_URL } from "./config.js"] *)
Definition API_URL : string := Config.API_URL (VITE_API_URL P).

(** [postFormJson]: the [throw] of the [try] block is inside the
    [try], so its own [catch] receives it. *)
Definition postFormJson (path : string) (form : FormData) : M value :=
  let fullUrl := API_URL ++ path in
  res <- fetch P fullUrl form ;;
  text <- body_text res ;;
  try_catch
    (json <- (if negb (String.eqb text "") then parse P text
              else ret (JObj [])) ;;
     if negb (ok res)
     then throw (JObj [("status", JNum (res_status res));
                       ("body", json);
                       ("text", JStr text)])
     else ret json)
    (fun err =>
       if negb (ok res)
       then throw (JObj [("status", JNum (res_status res));
                         ("text", JStr text)])
       else ret (JStr text)).

(** 1) session initiation *)
Definition initiateSession
    (user_id peer_id : string) (simulate_eavesdropper : bool) : M value :=
  let form := [] in
  let form := append "user_id" (FormText user_id) form in
  let form := append "peer_id" (FormText peer_id) form in
  let form := append "simulate_eavesdropper"
                (FormText (if simulate_eavesdropper then "true" else "false"))
                form in
  postFormJson "/api/v1/session/initiate" form.

(** 2) encrypt file *)
Definition encryptFile (user_id peer_id : string) (file : File) : M value :=
  let form := [] in
  let form := append "user_id" (FormText user_id) form in
  let form := append "peer_id" (FormText peer_id) form in
  let form := append "file" (FormFile file (Some (file_name file))) form in
  postFormJson "/api/v1/encrypt-file" form.

(** 3) decrypt preview *)
Definition decryptFilePreview
    (user_id peer_id nonce tag ciphertext : string) : M value :=
  let form := [] in
  let form := append "user_id" (FormText user_id) form in
  let form := append "peer_id" (FormText peer_id) form in
  let form := append "nonce" (FormText nonce) form in
  let form := append "tag" (FormText tag) form in
  let form := append "ciphertext" (FormText ciphertext) form in
  postFormJson "/api/v1/decrypt-file-preview" form.

(** 4) decrypt download *)
Definition decryptFileDownload
    (user_id peer_id nonce tag ciphertext : string) : M Response :=
  let form := [] in
  let form := append "user_id" (FormText user_id) form in
  let form := append "peer_id" (FormText peer_id) form in
  let form := append "nonce" (FormText nonce) form in
  let form := append "tag" (FormText tag) form in
  let form := append "ciphertext" (FormText ciphertext) form in
  res <- fetch P (API_URL ++ "/api/v1/decrypt-file") form ;;
  if negb (ok res)
  then
    txt <- body_text res ;;
    let txt := JStr txt in
    throw (JObj [("status", JNum (res_status res));
                 ("message", or_else txt (JStr "Download failed"))])
  else ret res.

End WithPlatform.
End Api.

(* ------------------------------------------------------------------ *)
(** ** App.jsx *)

Module App.
Import Js Model.
Local Open Scope js_scope.

(** The updater [resetStatus] passes to [setProcessStatus]. *)
Definition resetStatus_next (currentProcess : Pipeline) (prev : Processes)
  : Processes :=
  let nextStatus := INITIAL_PROCESS_STATUS in
  let nextStatus :=
    if negb (Pipeline_eqb currentProcess Session)
       && Status_eqb (status (session prev)) success
    then with_session (entry success "Session active") nextStatus
    else nextStatus in
  let nextStatus :=
    if negb (Pipeline_eqb currentProcess Session)
       && negb (Pipeline_eqb currentProcess Encrypt)
       && Status_eqb (status (encrypt prev)) success
    then with_encrypt (entry success "Encryption complete") nextStatus
    else nextStatus in
  let nextStatus :=
    if Pipeline_eqb currentProcess Session
    then INITIAL_PROCESS_STATUS
    else nextStatus in
  nextStatus.

Definition resetStatus (currentProcess : Pipeline) : M unit :=
  setDecryptedPreview (JStr "") ;;
  setProcessStatus (resetStatus_next currentProcess).

(** [x === n] for a number literal [n] *)
Definition is_number (x : value) (n : Z) : bool :=
  match x with JNum m => Z.eqb m n | _ => false end.

(** [v.k] where [v] is known to be truthy *)
Definition field (v : value) (k : string) : value :=
  match getProp v k with Some x => x | None => JUndefined end.

(** [err && err.k] *)
Definition guarded (err : value) (k : string) : value :=
  and_then err (field err k).

(** [err && err.k1 && err.k1.k2] *)
Definition guarded2 (err : value) (k1 k2 : string) : value :=
  and_then (guarded err k1) (field (field err k1) k2).

(** *** First revision: the handlers call [fetch] themselves *)
Module Direct.
Section WithPlatform.
Variable P : Platform.

Definition API_BASE_URL : string := "http://localhost:8000/api/v1".

(** [errorData = await response.json();
     detailMessage = errorData.detail || detailMessage]
    inside its own [try]/[catch]. *)
Definition detail_or (response : Response) (detailMessage : value)
  : M value :=
  try_catch
    (errorData <- json P response ;;
     d <- prop P errorData "detail" ;;
     ret (or_else d detailMessage))
    (fun e => ret detailMessage).

Definition handleGenerateKey (simulateEavesdropper : bool) : M unit :=
  st <- get_state ;;
  if String.eqb (currentUser st) (peerUser st) then
    setProcessStatus (fun _ =>
      with_session (entry error "User and Peer cannot be the same.")
                   INITIAL_PROCESS_STATUS) ;;
    setDecryptedPreview (JStr "")
  else
    setIsLoading true ;;
    resetStatus Session ;;
    setProcessStatus
      (with_session
         (entry loading "Establishing secure session... (QKD running)")) ;;
    sleep 1500 ;;
    let formData := [] in
    let formData := append "user_id" (FormText (currentUser st)) formData in
    let formData := append "peer_id" (FormText (peerUser st)) formData in
    let formData := append "simulate_eavesdropper"
                      (FormText (string_of_bool simulateEavesdropper))
                      formData in
    finally
      (try_catch
         (response <- fetch P (API_BASE_URL ++ "/session/initiate") formData ;;
          if negb (ok response) then
            let detailMessage :=
              JStr ("Request failed: " ++ string_of_Z (res_status response)) in
            r <- (if Z.eqb (res_status response) 403 then
                    let detailMessage :=
                      JStr "Attack detected. Session terminated." in
                    d <- detail_or response detailMessage ;;
                    ret (eavesdropper, d)
                  else
                    d <- detail_or response detailMessage ;;
                    ret (error, d)) ;;
            let '(statusToSet, detailMessage) := r in
            setProcessStatus (fun _ =>
              with_session
                (mkStatus statusToSet (Some statusToSet) detailMessage)
                INITIAL_PROCESS_STATUS) ;;
            setDecryptedPreview (JStr "")
          else
            data <- json P response ;;
            setProcessStatus (fun _ =>
              with_session (entry success "Secure session established!")
                           INITIAL_PROCESS_STATUS))
         (fun networkError =>
            setProcessStatus (fun _ =>
              with_session
                (entry error "Network error: Could not connect to server.")
                INITIAL_PROCESS_STATUS) ;;
            setDecryptedPreview (JStr "")))
      (setIsLoading false).

Definition handleEncrypt (file : File) : M unit :=
  st <- get_state ;;
  setIsLoading true ;;
  resetStatus Encrypt ;;
  setProcessStatus (with_encrypt (entry loading "Encrypting file...")) ;;
  setCryptoComponents empty_components ;;
  sleep 1000 ;;
  let formData := [] in
  let formData := append "user_id" (FormText (currentUser st)) formData in
  let formData := append "peer_id" (FormText (peerUser st)) formData in
  let formData := append "file" (FormFile file None) formData in
  finally
    (try_catch
       (response <- fetch P (API_BASE_URL ++ "/encrypt-file") formData ;;
        (if negb (ok response) then
           let detailMessage :=
             JStr ("Encryption failed: " ++ string_of_Z (res_status response)) in
           detailMessage <- detail_or response detailMessage ;;
           err <- new_Error P detailMessage ;;
           throw err
         else ret tt) ;;
        data <- json P response ;;
        setCryptoComponents data ;;
        setProcessStatus
          (with_encrypt (entry success "File encrypted. Components ready.")))
       (fun err =>
          m <- prop P err "message" ;;
          setProcessStatus (with_encrypt (mkStatus error (Some error) m))))
    (setIsLoading false).

Definition handleDecryptPreview (components : Components) : M unit :=
  st <- get_state ;;
  setIsLoading true ;;
  resetStatus Decrypt ;;
  setProcessStatus (with_decrypt (entry loading "Decrypting preview...")) ;;
  sleep 1000 ;;
  let formData := [] in
  let formData := append "user_id" (FormText (currentUser st)) formData in
  let formData := append "peer_id" (FormText (peerUser st)) formData in
  let formData := append "nonce" (FormText (nonce components)) formData in
  let formData := append "tag" (FormText (tag components)) formData in
  let formData :=
    append "ciphertext" (FormText (ciphertext components)) formData in
  finally
    (try_catch
       (response <- fetch P (API_BASE_URL ++ "/decrypt-file-preview") formData ;;
        (if negb (ok response) then
           let detailMessage :=
             JStr ("Decryption failed: " ++ string_of_Z (res_status response)) in
           detailMessage <- detail_or response detailMessage ;;
           err <- new_Error P detailMessage ;;
           throw err
         else ret tt) ;;
        data <- json P response ;;
        plaintext <- prop P data "plaintext" ;;
        setDecryptedPreview plaintext ;;
        setProcessStatus
          (with_decrypt (entry success "Decryption preview successful.")))
       (fun err =>
          m <- prop P err "message" ;;
          setProcessStatus (with_decrypt (mkStatus error (Some error) m)) ;;
          m' <- prop P err "message" ;;
          shown <- to_string P m' ;;
          setDecryptedPreview (JStr ("Error: " ++ shown))))
    (setIsLoading false).

End WithPlatform.
End Direct.

(** *** Second revision: the handlers go through api.js *)
Module ViaApi.
Section WithPlatform.
Variable P : Platform.

Definition handleGenerateKey (simulateEavesdropper : bool) : M unit :=
  st <- get_state ;;
  if String.eqb (currentUser st) (peerUser st) then
    setProcessStatus (fun _ =>
      with_session (entry error "User and Peer cannot be the same.")
                   INITIAL_PROCESS_STATUS) ;;
    setDecryptedPreview (JStr "")
  else
    setIsLoading true ;;
    resetStatus Session ;;
    setProcessStatus
      (with_session
         (entry loading "Establishing secure session... (QKD running)")) ;;
    sleep 1500 ;;
    finally
      (try_catch
         (data <- Api.initiateSession P (currentUser st) (peerUser st)
                                      simulateEavesdropper ;;
          setProcessStatus (fun _ =>
            with_session (entry success "Secure session established!")
                         INITIAL_PROCESS_STATUS))
         (fun err =>
            let detailMessage := JStr "Key establishment failed." in
            let statusToSet := error in
            let '(statusToSet, detailMessage) :=
              if truthy err && is_number (field err "status") 403 then
                (eavesdropper,
                 or_else (guarded2 err "body" "detail")
                         (JStr "Attack detected. Session terminated."))
              else if truthy (guarded2 err "body" "detail") then
                (statusToSet, field (field err "body") "detail")
              else if truthy (guarded err "text") then
                (statusToSet, field err "text")
              else if truthy (guarded err "message") then
                (statusToSet, field err "message")
              else (statusToSet, detailMessage) in
            setProcessStatus (fun _ =>
              with_session
                (mkStatus statusToSet (Some statusToSet) detailMessage)
                INITIAL_PROCESS_STATUS) ;;
            setDecryptedPreview (JStr "")))
      (setIsLoading false).

(** The message the [catch] blocks of [handleEncrypt] and
    [handleDecryptPreview] derive from what they caught. *)
Definition derive_message (err : value) (detailMessage : value) : value :=
  if truthy (guarded2 err "body" "detail") then
    field (field err "body") "detail"
  else if truthy (guarded err "text") then field err "text"
  else if truthy (guarded err "message") then
    or_else (field err "message") detailMessage
  else detailMessage.

Definition handleEncrypt (file : File) : M unit :=
  st <- get_state ;;
  setIsLoading true ;;
  resetStatus Encrypt ;;
  setProcessStatus (with_encrypt (entry loading "Encrypting file...")) ;;
  setCryptoComponents empty_components ;;
  sleep 1000 ;;
  finally
    (try_catch
       (data <- Api.encryptFile P (currentUser st) (peerUser st) file ;;
        setCryptoComponents data ;;
        setProcessStatus
          (with_encrypt (entry success "File encrypted. Components ready.")))
       (fun err =>
          let detailMessage := derive_message err (JStr "Encryption failed.") in
          setProcessStatus
            (with_encrypt (mkStatus error (Some error) detailMessage))))
    (setIsLoading false).

Definition handleDecryptPreview (components : Components) : M unit :=
  st <- get_state ;;
  setIsLoading true ;;
  resetStatus Decrypt ;;
  setProcessStatus (with_decrypt (entry loading "Decrypting preview...")) ;;
  sleep 1000 ;;
  finally
    (try_catch
       (data <- Api.decryptFilePreview P (currentUser st) (peerUser st)
                  (nonce components) (tag components)
                  (ciphertext components) ;;
        plaintext <- prop P data "plaintext" ;;
        setDecryptedPreview (or_else plaintext (JStr "")) ;;
        setProcessStatus
          (with_decrypt (entry success "Decryption preview successful.")))
       (fun err =>
          let detailMessage := derive_message err (JStr "Decryption failed.") in
          setProcessStatus
            (with_decrypt (mkStatus error (Some error) detailMessage)) ;;
          shown <- to_string P detailMessage ;;
          setDecryptedPreview (JStr ("Error: " ++ shown))))
    (setIsLoading false).

End WithPlatform.
End ViaApi.

(** [isSessionReady] and [isEncryptReady], computed at each render. *)
Definition isSessionReady (st : AppState) : bool :=
  Status_eqb (status (session (processStatus st))) success.
Definition isEncryptReady (st : AppState) : bool :=
  Status_eqb (status (encrypt (processStatus st))) success.

End App.

(* ------------------------------------------------------------------ *)
(** ** The components *)

Module View.
Import Js Model.
Local Open Scope js_scope.

(** *** Visualizer.jsx *)

Definition getConnectionStatus (processes : Processes) : ProcessStatus :=
  (* 1. Eavesdropper is absolute highest priority *)
  if Status_eqb (status (session processes)) eavesdropper then
    session processes
  else
    (* 2. Check ANY Error State NEXT *)
    let errorProcess :=
      if Status_eqb (status (decrypt processes)) error
      then Some (decrypt processes)
      else if Status_eqb (status (encrypt processes)) error
      then Some (encrypt processes)
      else if Status_eqb (status (session processes)) error
      then Some (session processes)
      else None in
    match errorProcess with
    | Some errorProcess => mkStatus error None (message errorProcess)
    | None =>
        (* 3. Check ANY Loading State *)
        if Status_eqb (status (decrypt processes)) loading
        then decrypt processes
        else if Status_eqb (status (encrypt processes)) loading
        then encrypt processes
        else if Status_eqb (status (session processes)) loading
        then session processes
        else
          (* 4. If nothing else matches, show success/idle *)
          mkStatus success None (JStr "Secure Tunnel Active")
    end.

Definition getTopMessage (processes : Processes) : value :=
  if Status_eqb (status (session processes)) eavesdropper
  then message (session processes)
  else if Status_eqb (status (decrypt processes)) error
  then message (decrypt processes)
  else if Status_eqb (status (encrypt processes)) error
  then message (encrypt processes)
  else if Status_eqb (status (session processes)) error
  then message (session processes)
  else if Status_eqb (status (decrypt processes)) loading
  then message (decrypt processes)
  else if Status_eqb (status (encrypt processes)) loading
  then message (encrypt processes)
  else if Status_eqb (status (session processes)) loading
  then message (session processes)
  else if Status_eqb (status (decrypt processes)) success
  then message (decrypt processes)
  else if Status_eqb (status (encrypt processes)) success
  then message (encrypt processes)
  else if Status_eqb (status (session processes)) success
  then message (session processes)
  else message (session processes).

(** [ConnectionVisual] draws by [status?.type || 'idle']. *)
Definition ConnectionVisual_type (st : ProcessStatus) : Status :=
  match type st with
  | Some t => t
  | None => idle
  end.

(** *** Button.jsx and AnimatedCard.jsx *)

(** The [disabled] attribute of the rendered button:
    [disabled={disabled || isLoading}]. *)
Definition Button_disabled (disabled isLoading : bool) : bool :=
  disabled || isLoading.

(** The card carries the classes
    [opacity-50 grayscale pointer-events-none] when [isDisabled]. *)
Definition AnimatedCard_pointer_events_none (isDisabled : bool) : bool :=
  isDisabled.

(** *** What is on screen: the state of [App] and of the two cards *)

Record Screen : Type := mkScreen {
  app : AppState;
  (** [selectedFile] of Encryptor *)
  selectedFile : option File;
  (** [components] of Decryptor *)
  components : Components
}.

(** The props [App] passes down. *)
Definition Encryptor_isDisabled (sc : Screen) : bool :=
  negb (App.isSessionReady (app sc)).
Definition Decryptor_isDisabled (sc : Screen) : bool :=
  negb (App.isEncryptReady (app sc)).

(** *** Encryptor.jsx *)

Definition Encryptor_card_inert (sc : Screen) : bool :=
  AnimatedCard_pointer_events_none (Encryptor_isDisabled sc).

(** [<input type="file" disabled={isDisabled} />] *)
Definition Encryptor_file_input_disabled (sc : Screen) : bool :=
  Encryptor_isDisabled sc.

(** The Encrypt button:
    [disabled={!selectedFile || isLoading}]
    [isLoading={isLoading && status.status === 'loading'}]. *)
Definition Encryptor_button_disabled (sc : Screen) : bool :=
  let isLoading := isLoading (app sc) in
  let st := encrypt (processStatus (app sc)) in
  Button_disabled
    (negb (match selectedFile sc with Some _ => true | None => false end)
     || isLoading)
    (isLoading && Status_eqb (status st) loading).

(** *** Decryptor.jsx *)

Definition Decryptor_card_inert (sc : Screen) : bool :=
  AnimatedCard_pointer_events_none (Decryptor_isDisabled sc).

(** The three [CryptoInput]s: [disabled={isDisabled}]. *)
Definition Decryptor_input_disabled (sc : Screen) : bool :=
  Decryptor_isDisabled sc.

(** "Preview Decryption":
    [disabled={isLoading}]
    [isLoading={isLoading && status.status === 'loading'}]. *)
Definition Decryptor_preview_button_disabled (sc : Screen) : bool :=
  let isLoading := isLoading (app sc) in
  let st := decrypt (processStatus (app sc)) in
  Button_disabled isLoading (isLoading && Status_eqb (status st) loading).

(** "Download Decrypted File": [disabled={isLoading}], and [isLoading]
    takes its default, [false]. *)
Definition Decryptor_download_button_disabled (sc : Screen) : bool :=
  Button_disabled (isLoading (app sc)) false.

Section WithPlatform.
Variable P : Platform.

Definition API_BASE_URL : string := "http://localhost:8000/api/v1".

(** [handleDownload] of Decryptor *)
Definition handleDownload (currentUser peerUser : string)
    (components : Components) : M unit :=
  let formData := [] in
  let formData := append "user_id" (FormText currentUser) formData in
  let formData := append "peer_id" (FormText peerUser) formData in
  let formData := append "nonce" (FormText (nonce components)) formData in
  let formData := append "tag" (FormText (tag components)) formData in
  let formData :=
    append "ciphertext" (FormText (ciphertext components)) formData in
  try_catch
    (response <- fetch P (API_BASE_URL ++ "/decrypt-file") formData ;;
     (if negb (ok response) then
        errData <- json P response ;;
        d <- prop P errData "detail" ;;
        err <- new_Error P (or_else d (JStr "Download failed")) ;;
        throw err
      else ret tt) ;;
     blob <- body_text response ;;
     emit (fun _ => EvSave "decrypted_file" blob))
    (fun err =>
       m <- prop P err "message" ;;
       shown <- to_string P m ;;
       emit (fun _ => EvAlert ("Error: " ++ shown))).

(** A click that reaches a button runs its [onClick] unless the
    button carries the [disabled] attribute.  [onEncrypt] and
    [onDecryptPreview] are the handlers of the revision of [App] that
    is mounted. *)
Definition click_encrypt (onEncrypt : File -> M unit) (sc : Screen)
  : M unit :=
  if Encryptor_button_disabled sc then ret tt
  else match selectedFile sc with
       | Some file => onEncrypt file
       | None => ret tt
       end.

Definition click_preview (onDecryptPreview : Components -> M unit)
    (sc : Screen) : M unit :=
  if Decryptor_preview_button_disabled sc then ret tt
  else onDecryptPreview (components sc).

Definition click_download (sc : Screen) : M unit :=
  if Decryptor_download_button_disabled sc then ret tt
  else handleDownload (currentUser (app sc)) (peerUser (app sc))
                      (components sc).

End WithPlatform.

(** *** The headline rule in the words of the specification

    Eavesdropper on the session first; then the first pipeline in error,
    then the first pipeline loading, both looked up in one fixed order;
    then the default display. *)
Definition scan_order : list Pipeline := [Decrypt; Encrypt; Session].

Definition first_with (s : Status) (ps : Processes) : option ProcessStatus :=
  find (fun x => Status_eqb (status x) s)
       (map (fun p => pipeline p ps) scan_order).

(** Is some pipeline in state [s]? *)
Definition some_pipeline (s : Status) (ps : Processes) : bool :=
  existsb (fun p => Status_eqb (status (pipeline p ps)) s) scan_order.

Definition headline_status (ps : Processes) : Status :=
  if Status_eqb (status (session ps)) eavesdropper then eavesdropper
  else match first_with error ps with
       | Some _ => error
       | None => match first_with loading ps with
                 | Some _ => loading
                 | None => success
                 end
       end.

Definition headline_message (ps : Processes) : value :=
  if Status_eqb (status (session ps)) eavesdropper then message (session ps)
  else match first_with error ps with
       | Some x => message x
       | None => match first_with loading ps with
                 | Some x => message x
                 | None => JStr "Secure Tunnel Active"
                 end
       end.

End View.

(* ------------------------------------------------------------------ *)
(** ** Sample platforms and screens *)

Module Scenarios.
Import Js Model.

Definition quote : string := String "034"%char EmptyString.

(** The message a browser gives the TypeError of [null.k]. *)
Definition null_message (k : string) : string :=
  "Cannot read properties of null (reading '" ++ k ++ "')".

Definition unexpected : string := "Unexpected token in JSON".

(** The message a browser gives the TypeError of a failed conversion
    to a primitive. *)
Definition not_primitive : string := "Cannot convert object to primitive value".

(** No server: every [fetch] rejects. *)
Definition offline : Platform :=
  mkPlatform (fun _ => inr unexpected)
             (fun _ => NetworkFailure "Failed to fetch")
             null_message None not_primitive.

(** A server that answers every request with [r], on a platform that
    parses the text [body] to [parsed] and nothing else. *)
Definition server (r : Response) (body : string) (parsed : value) : Platform :=
  mkPlatform (fun text => if String.eqb text body then inl parsed
                          else inr unexpected)
             (fun _ => Responded r)
             null_message None not_primitive.

(** The text [{"detail":"Eve detected"}]. *)
Definition eve_body : string :=
  "{" ++ quote ++ "detail" ++ quote ++ ":" ++ quote ++ "Eve detected" ++ quote ++ "}".

(** Session initiation answered with 403 and that body. *)
Definition eve : Platform :=
  server (mkResponse 403 eve_body) eve_body
         (JObj [("detail", JStr "Eve detected")]).

(** The text [{"detail":""}], answered with 403. *)
Definition empty_detail_body : string :=
  "{" ++ quote ++ "detail" ++ quote ++ ":" ++ quote ++ quote ++ "}".

Definition eve_silent : Platform :=
  server (mkResponse 403 empty_detail_body) empty_detail_body
         (JObj [("detail", JStr "")]).

(** A server that fails with 500 and a body that is not JSON. *)
Definition broken : Platform :=
  server (mkResponse 500 "oops") "" (JObj []).

(** A server that answers 200 with a body that is not JSON. *)
Definition chatty : Platform :=
  server (mkResponse 200 "hello") "" (JObj []).

(** Alice has chosen herself as her peer. *)
Definition alice_alice : AppState :=
  mkApp "Alice" "Alice" false INITIAL_PROCESS_STATUS empty_components (JStr "").

(** A state in which encryption and decryption have succeeded. *)
Definition all_done : AppState :=
  mkApp "Alice" "Bob" false
        (mkProcesses (entry success "Secure session established!")
                     (entry success "File encrypted. Components ready.")
                     (entry success "Decryption preview successful."))
        (JObj [("nonce", JStr "n1"); ("tag", JStr "t1"); ("ciphertext", JStr "c1")])
        (JStr "hello").

Definition triple : Components := mkComponents "n1" "t1" "c1".

(** Encrypt is clicked; Generate Secure Key is clicked while Encrypt
    sleeps; the encrypt request leaves and is answered, and
    [handleEncrypt] ends, before the sleep of [handleGenerateKey] is
    over; then [handleGenerateKey] goes on to its end. *)
Definition generate_during_encrypt : list Turn :=
  [First; Second; First; First; First; First;
   Second; Second; Second; Second].

Definition notes : File := mkFile "notes.txt" "hello".

(** The screen right after [App] mounts, with a triple typed into the
    Decryptor card. *)
Definition fresh_screen : View.Screen :=
  View.mkScreen initial_state None triple.

(** A file was chosen while a session was active; the session has since
    been restarted and refused. *)
Definition stale_file_screen : View.Screen :=
  View.mkScreen
    (mkApp "Alice" "Bob" false
           (with_session (entry eavesdropper "Eve detected") INITIAL_PROCESS_STATUS)
           empty_components (JStr ""))
    (Some notes) triple.

End Scenarios.

(* ------------------------------------------------------------------ *)
(** ** The local state of the cards and the session card *)

Module Cards.
Import Js Model View.
Local Open Scope js_scope.

(** *** SessionManager.jsx *)

(** "Generate Secure Key": no [disabled] prop, so it takes the default
    [false]; [isLoading={isLoading && status.status === 'loading'}]. *)
Definition SessionManager_button_disabled (sc : Screen) : bool :=
  let isLoading := isLoading (app sc) in
  let st := session (processStatus (app sc)) in
  Button_disabled false (isLoading && Status_eqb (status st) loading).

(** *** Decryptor.jsx *)

(** [handleChange]: [setComponents({ ...components, [name]: value })].
    The three inputs are named [nonce], [tag] and [ciphertext]; a
    property of any other name would be stored and never read. *)
Definition handleChange (name value : string) (components : Components)
  : Components :=
  if String.eqb name "nonce"
  then mkComponents value (tag components) (ciphertext components)
  else if String.eqb name "tag"
  then mkComponents (nonce components) value (ciphertext components)
  else if String.eqb name "ciphertext"
  then mkComponents (nonce components) (tag components) value
  else components.

(** *** Encryptor.jsx *)

(** [{cryptoComponents.nonce && (...)}]: are the three outputs drawn?
    [None] is the TypeError of reading [nonce] of [null]. *)
Definition Encryptor_outputs_shown (st : AppState) : option bool :=
  match getProp (cryptoComponents st) "nonce" with
  | Some v => Some (truthy v)
  | None => None
  end.

(** Are the buttons of the Encryptor and Decryptor cards all disabled
    on the screen made of [st] and the local state of [sc]? *)
Definition operation_buttons_disabled (sc : Screen) (st : AppState) : bool :=
  let now := mkScreen st (selectedFile sc) (components sc) in
  Encryptor_button_disabled now
  && Decryptor_preview_button_disabled now
  && Decryptor_download_button_disabled now.

(** Does [check] hold of the state on screen at every request of [evs]? *)
Definition at_every_fetch (check : AppState -> bool) (evs : list Event) : bool :=
  forallb (fun ev =>
             match ev with
             | EvFetch _ at_issue => check at_issue
             | _ => true
             end) evs.

(** The [disabled] attributes of Encrypt, Preview Decryption and
    Download Decrypted File, in this order, on the screen made of [st]
    and the local state of [sc]. *)
Definition operation_buttons (sc : Screen) (st : AppState)
  : bool * bool * bool :=
  let now := mkScreen st (selectedFile sc) (components sc) in
  (Encryptor_button_disabled now,
   Decryptor_preview_button_disabled now,
   Decryptor_download_button_disabled now).

(** Every record says the same in [type] as in [status]. *)
Definition type_agrees (x : ProcessStatus) : bool :=
  match type x with
  | Some t => Status_eqb t (status x)
  | None => false
  end.

Definition types_agree (ps : Processes) : bool :=
  type_agrees (session ps) && type_agrees (encrypt ps) && type_agrees (decrypt ps).

(** [idle] or [success]: what [resetStatus] can leave. *)
Definition quiet (s : Status) : bool :=
  match s with
  | idle | success => true
  | _ => false
  end.

(** [msg || fallback] on strings. *)
Definition or_text (msg fallback : string) : string :=
  if String.eqb msg "" then fallback else msg.

(** The message of the error that [new Error(v)] leaves in the [catch]
    block: that of the new error, or that of the TypeError raised when
    [v] cannot be converted to a string. *)
Definition error_text (P : Platform) (v : value) : string :=
  match toString v with
  | Some s => s
  | None => primitive_message P
  end.


End Cards.

(* ------------------------------------------------------------------ *)
(** ** More sample platforms *)

Module Samples.
Import Js Model.

(** The text [{"plaintext":"hello"}], answered with 200. *)
Definition hello_body : string :=
  "{" ++ Scenarios.quote ++ "plaintext" ++ Scenarios.quote ++ ":"
      ++ Scenarios.quote ++ "hello" ++ Scenarios.quote ++ "}".

Definition hello : Platform :=
  Scenarios.server (mkResponse 200 hello_body) hello_body
                   (JObj [("plaintext", JStr "hello")]).

(** The text [{"nonce":"n1","tag":"t1","ciphertext":"c1"}], answered
    with 200. *)
Definition triple_body : string :=
  let q := Scenarios.quote in
  "{" ++ q ++ "nonce" ++ q ++ ":" ++ q ++ "n1" ++ q ++ ","
      ++ q ++ "tag" ++ q ++ ":" ++ q ++ "t1" ++ q ++ ","
      ++ q ++ "ciphertext" ++ q ++ ":" ++ q ++ "c1" ++ q ++ "}".

Definition triple_value : value :=
  JObj [("nonce", JStr "n1"); ("tag", JStr "t1"); ("ciphertext", JStr "c1")].

Definition encrypting : Platform :=
  Scenarios.server (mkResponse 200 triple_body) triple_body triple_value.

(** A build with the root given with the API prefix in capitals and
    two slashes after it, and no server behind it. *)
Definition misconfigured : Platform :=
  mkPlatform (fun _ => inr Scenarios.unexpected)
             (fun _ => NetworkFailure "Failed to fetch")
             Scenarios.null_message
             (Some "https://qx.example/API/V1//")
             Scenarios.not_primitive.

(** The text [{"detail":[]}], answered with 500. *)
Definition empty_list_body : string :=
  "{" ++ Scenarios.quote ++ "detail" ++ Scenarios.quote ++ ":[]}".

Definition empty_list : Platform :=
  Scenarios.server (mkResponse 500 empty_list_body) empty_list_body
                   (JObj [("detail", JArr [])]).





(** A state with the session in [error]. *)
Definition session_failed : AppState :=
  mkApp "Alice" "Bob" false
        (with_session (entry error "Key establishment failed.")
                      INITIAL_PROCESS_STATUS)
        triple_value (JStr "hello").

End Samples.

(* ================================================================== *)
(** * Properties *)

(* ------------------------------------------------------------------ *)
(** ** config.js: the normalised root *)

Section ConfigFacts.
Import Config.

Lemma strip_trailing_slashes_no_slash (s : string) :
  ends_with_slash (strip_trailing_slashes s) = false.
Proof.
  induction s as [|c r IH]; simpl; [reflexivity|].
  destruct (strip_trailing_slashes r) as [|a b] eqn:E.
  - destruct (is_slash c) eqn:Hc; simpl; [reflexivity | exact Hc].
  - exact IH.
Qed.

Lemma strip_trailing_slashes_fixed (s : string) :
  ends_with_slash s = false -> strip_trailing_slashes s = s.
Proof.
  induction s as [|c r IH]; simpl; [reflexivity|].
  destruct r as [|a b].
  - intros Hc. simpl. rewrite Hc. reflexivity.
  - intros H. rewrite (IH H). reflexivity.
Qed.

Lemma strip_trailing_slashes_length (s : string) :
  String.length (strip_trailing_slashes s) <= String.length s.
Proof.
  induction s as [|c r IH]; simpl; [lia|].
  destruct (strip_trailing_slashes r) as [|a b].
  - destruct (is_slash c); simpl; lia.
  - simpl in *. lia.
Qed.

Lemma strip_api_prefix_fixed (s : string) :
  ends_with_api_prefix s = false -> strip_api_prefix s = s.
Proof.
  induction s as [|c r IH]; [reflexivity|].
  cbn [ends_with_api_prefix strip_api_prefix].
  intros H. apply orb_false_iff in H. destruct H as [Hm Hr].
  rewrite Hm, (IH Hr). reflexivity.
Qed.

Lemma strip_api_prefix_length (s : string) :
  String.length (strip_api_prefix s) <= String.length s.
Proof.
  induction s as [|c r IH]; [simpl; lia|].
  cbn [strip_api_prefix]. destruct (matches_api_prefix (String c r)); simpl; lia.
Qed.

Lemma strip_api_prefix_shrinks (s : string) :
  ends_with_api_prefix s = true ->
  String.length (strip_api_prefix s) < String.length s.
Proof.
  induction s as [|c r IH]; [discriminate|].
  cbn [ends_with_api_prefix strip_api_prefix].
  destruct (matches_api_prefix (String c r)); simpl.
  - lia.
  - intros H. specialize (IH H). lia.
Qed.

(** The fixed points of the normalisation are the canonical roots. *)
Lemma normalize_fixed_iff (n : string) :
  normalize n = n <-> canonical n = true.
Proof.
  unfold normalize, canonical. split.
  - intros H.
    assert (Hlen : String.length (strip_api_prefix (strip_trailing_slashes n))
                   = String.length n) by (rewrite H; reflexivity).
    pose proof (strip_trailing_slashes_length n) as L1.
    pose proof (strip_api_prefix_length (strip_trailing_slashes n)) as L2.
    destruct (ends_with_api_prefix (strip_trailing_slashes n)) eqn:Ha.
    + apply strip_api_prefix_shrinks in Ha. lia.
    + rewrite (strip_api_prefix_fixed _ Ha) in H.
      rewrite H in Ha.
      pose proof (strip_trailing_slashes_no_slash n) as Hs.
      rewrite H in Hs. rewrite Hs, Ha. reflexivity.
  - intros H. apply andb_true_iff in H. destruct H as [Hs Ha].
    apply negb_true_iff in Hs. apply negb_true_iff in Ha.
    rewrite (strip_trailing_slashes_fixed _ Hs).
    apply strip_api_prefix_fixed. exact Ha.
Qed.

Lemma length_app (a b : string) :
  String.length (a ++ b) = String.length a + String.length b.
Proof. induction a as [|c r IH]; simpl; congruence. Qed.

Lemma app_assoc (a b c : string) : (a ++ b) ++ c = a ++ b ++ c.
Proof. induction a as [|x r IH]; simpl; congruence. Qed.

Lemma lower_string_length (s : string) :
  String.length (lower_string s) = String.length s.
Proof. induction s as [|c r IH]; simpl; congruence. Qed.

Lemma matches_api_prefix_length (x : string) :
  matches_api_prefix x = true -> String.length x = 7.
Proof.
  unfold matches_api_prefix. intros H. apply String.eqb_eq in H.
  rewrite <- lower_string_length, H. reflexivity.
Qed.

(** The anchored pattern can only match the last seven characters. *)
Lemma strip_api_prefix_app (root x : string) :
  matches_api_prefix x = true -> strip_api_prefix (root ++ x) = root.
Proof.
  intros Hx. induction root as [|c r IH].
  - simpl. destruct x as [|a b]; [reflexivity|].
    cbn [strip_api_prefix]. rewrite Hx. reflexivity.
  - simpl append. cbn [strip_api_prefix].
    destruct (matches_api_prefix (String c (r ++ x))) eqn:E.
    + apply matches_api_prefix_length in E.
      apply matches_api_prefix_length in Hx.
      simpl in E. rewrite length_app in E. lia.
    + rewrite IH. reflexivity.
Qed.

Lemma strip_trailing_slashes_slashes (k : nat) :
  strip_trailing_slashes (slashes k) = "".
Proof.
  induction k as [|k IH]; [reflexivity|].
  simpl. rewrite IH. reflexivity.
Qed.

Lemma strip_trailing_slashes_app (s : string) (k : nat) :
  strip_trailing_slashes (s ++ slashes k) = strip_trailing_slashes s.
Proof.
  induction s as [|c r IH].
  - apply strip_trailing_slashes_slashes.
  - simpl. rewrite IH. reflexivity.
Qed.

Lemma ends_with_slash_app (root x : string) :
  x <> "" -> ends_with_slash (root ++ x) = ends_with_slash x.
Proof.
  intros Hx. induction root as [|c r IH]; [reflexivity|].
  simpl append. cbn [ends_with_slash].
  destruct (r ++ x) eqn:E.
  - destruct r; simpl in E; [contradiction | discriminate].
  - exact IH.
Qed.

Lemma matches_api_prefix_no_slash (x : string) :
  matches_api_prefix x = true -> ends_with_slash x = false.
Proof.
  intros H. pose proof (matches_api_prefix_length x H) as L.
  destruct x as [|c1 [|c2 [|c3 [|c4 [|c5 [|c6 [|c7 [|c8 x]]]]]]]];
    try discriminate L.
  unfold matches_api_prefix in H. apply String.eqb_eq in H.
  simpl in H. injection H as _ _ _ _ _ _ H7.
  simpl. destruct (is_slash c7) eqn:E; [|reflexivity].
  apply Ascii.eqb_eq in E. subst c7. discriminate H7.
Qed.

(** One API prefix, in any letter case, and any number of slashes after
    it are removed from any root. *)
Lemma normalize_strips_one_prefix (root x : string) (k : nat) :
  matches_api_prefix x = true ->
  normalize (root ++ x ++ slashes k) = root.
Proof.
  intros Hx. unfold normalize.
  rewrite <- app_assoc, strip_trailing_slashes_app.
  rewrite strip_trailing_slashes_fixed.
  - apply strip_api_prefix_app. exact Hx.
  - rewrite ends_with_slash_app.
    + apply matches_api_prefix_no_slash. exact Hx.
    + intros E. subst x. discriminate Hx.
Qed.

Lemma normalize_strips_slashes (root : string) (k : nat) :
  canonical root = true -> normalize (root ++ slashes k) = root.
Proof.
  intros H. unfold normalize. rewrite strip_trailing_slashes_app.
  apply normalize_fixed_iff. exact H.
Qed.

(** Of two API prefixes only the last is removed. *)
Lemma normalize_leaves_first_prefix (root x y : string) (k : nat) :
  matches_api_prefix x = true ->
  matches_api_prefix y = true ->
  normalize (root ++ x ++ y ++ slashes k) = root ++ x
  /\ ends_with_api_prefix (root ++ x) = true.
Proof.
  intros Hx Hy. split.
  - rewrite <- app_assoc. apply normalize_strips_one_prefix. exact Hy.
  - induction root as [|c r IH].
    + simpl. destruct x as [|a b]; [discriminate Hx|].
      cbn [ends_with_api_prefix]. rewrite Hx. reflexivity.
    + simpl append. cbn [ends_with_api_prefix]. rewrite IH.
      apply orb_true_r.
Qed.

(** On a canonical root that was given at most one API prefix and any
    number of trailing slashes, a second application changes nothing. *)
Lemma normalize_idempotent_on_usual_roots (root x : string) (k : nat) :
  canonical root = true ->
  matches_api_prefix x = true ->
  normalize (normalize (root ++ x ++ slashes k)) = normalize (root ++ x ++ slashes k)
  /\ normalize (normalize (root ++ slashes k)) = normalize (root ++ slashes k).
Proof.
  intros Hr Hx.
  rewrite (normalize_strips_one_prefix root x k Hx).
  rewrite (normalize_strips_slashes root k Hr).
  split; apply normalize_fixed_iff; exact Hr.
Qed.

End ConfigFacts.

(** [normalize] is not idempotent: a root that carries the API prefix
    twice loses one copy per application. *)
Lemma normalize_not_idempotent :
  ~ (forall s : string,
       Config.normalize (Config.normalize s) = Config.normalize s).
Proof.
  intros H. specialize (H "http://localhost:8000/api/v1/api/v1").
  vm_compute in H. discriminate H.
Qed.

(** C6, at a root that carries the API prefix twice: the exported
    [API_URL] is the normalised root, it still ends with the prefix,
    against the header of config.js ("the backend ROOT (no /api/v1)"),
    and a second application of the normalisation removes it, so that
    applying it twice does not give what applying it once gives. *)
Theorem normalize_leaves_an_api_prefix :
  Config.API_URL (Some "http://localhost:8000/api/v1/api/v1")
  = Config.normalize "http://localhost:8000/api/v1/api/v1"
  /\ Config.normalize "http://localhost:8000/api/v1/api/v1"
     = "http://localhost:8000/api/v1"
  /\ Config.ends_with_api_prefix
       (Config.normalize "http://localhost:8000/api/v1/api/v1") = true
  /\ Config.normalize (Config.normalize "http://localhost:8000/api/v1/api/v1")
     = "http://localhost:8000"
  /\ Config.normalize (Config.normalize "http://localhost:8000/api/v1/api/v1")
     <> Config.normalize "http://localhost:8000/api/v1/api/v1".
Proof.
  repeat split; try (vm_compute; reflexivity).
  vm_compute. discriminate.
Qed.

(* ------------------------------------------------------------------ *)
(** ** Visualizer.jsx: the headline status *)

Section HeadlineFacts.
Import Js Model View.

Lemma getConnectionStatus_refines (ps : Processes) :
  status (getConnectionStatus ps) = headline_status ps
  /\ message (getConnectionStatus ps) = headline_message ps.
Proof.
  destruct ps as [[s1 t1 m1] [s2 t2 m2] [s3 t3 m3]].
  destruct s1, s2, s3; split; reflexivity.
Qed.

Lemma getTopMessage_refines (ps : Processes) :
  getTopMessage ps =
  match headline_status ps with
  | success =>
      match first_with success ps with
      | Some x => message x
      | None => message (session ps)
      end
  | _ => headline_message ps
  end.
Proof.
  destruct ps as [[s1 t1 m1] [s2 t2 m2] [s3 t3 m3]].
  destruct s1, s2, s3; reflexivity.
Qed.

Lemma headline_status_ranks (ps : Processes) :
  headline_status ps =
  if Status_eqb (status (session ps)) eavesdropper then eavesdropper
  else if some_pipeline error ps then error
  else if some_pipeline loading ps then loading
  else success.
Proof.
  destruct ps as [[s1 t1 m1] [s2 t2 m2] [s3 t3 m3]].
  destruct s1, s2, s3; reflexivity.
Qed.

(** The headline record of the error rank and of the default rank has no
    [type], so [ConnectionVisual] draws both as [idle]. *)
Lemma ConnectionVisual_type_of_headline (ps : Processes) :
  ConnectionVisual_type (getConnectionStatus ps) =
  match headline_status ps with
  | eavesdropper => ConnectionVisual_type (session ps)
  | loading =>
      match first_with loading ps with
      | Some x => ConnectionVisual_type x
      | None => idle
      end
  | _ => idle
  end.
Proof.
  destruct ps as [[s1 t1 m1] [s2 t2 m2] [s3 t3 m3]].
  destruct s1, s2, s3; reflexivity.
Qed.

End HeadlineFacts.

(** C7: for every triple of status records the headline follows the fixed
    priority.  An eavesdropper on the session wins over everything; else
    an error in any pipeline wins, else a loading pipeline, else the
    default display; within the error rank and within the loading rank
    the pipelines are looked up in one and the same order (decrypt,
    encrypt, session), and [getTopMessage] shows the message of the same
    winner. *)
Theorem headline_follows_priority (ps : Model.Processes) :
  Model.status (View.getConnectionStatus ps) =
    (if Model.Status_eqb (Model.status (Model.session ps)) Model.eavesdropper
     then Model.eavesdropper
     else if View.some_pipeline Model.error ps then Model.error
     else if View.some_pipeline Model.loading ps then Model.loading
     else Model.success)
  /\ Model.status (View.getConnectionStatus ps) = View.headline_status ps
  /\ Model.message (View.getConnectionStatus ps) = View.headline_message ps
  /\ View.getTopMessage ps =
     match View.headline_status ps with
     | Model.success =>
         match View.first_with Model.success ps with
         | Some x => Model.message x
         | None => Model.message (Model.session ps)
         end
     | _ => View.headline_message ps
     end.
Proof.
  destruct (getConnectionStatus_refines ps) as [Hs Hm].
  split; [rewrite Hs; apply headline_status_ranks|].
  split; [exact Hs|].
  split; [exact Hm | apply getTopMessage_refines].
Qed.

(* ------------------------------------------------------------------ *)
(** ** App.jsx: the reset policy *)

Section ResetFacts.
Import Js Model App.

Lemma resetStatus_final (p : Pipeline) (st : AppState) :
  final (resetStatus p) st =
  mkApp (currentUser st) (peerUser st) (isLoading st)
        (resetStatus_next p (processStatus st))
        (cryptoComponents st) (JStr "").
Proof. reflexivity. Qed.

Lemma resetStatus_next_session (prev : Processes) :
  resetStatus_next Session prev = INITIAL_PROCESS_STATUS.
Proof. reflexivity. Qed.

Lemma resetStatus_next_encrypt (prev : Processes) :
  resetStatus_next Encrypt prev =
  if Status_eqb (status (session prev)) success
  then with_session (entry success "Session active") INITIAL_PROCESS_STATUS
  else INITIAL_PROCESS_STATUS.
Proof.
  unfold resetStatus_next. simpl.
  destruct (Status_eqb (status (session prev)) success); reflexivity.
Qed.

Lemma resetStatus_next_decrypt (prev : Processes) :
  resetStatus_next Decrypt prev =
  mkProcesses
    (if Status_eqb (status (session prev)) success
     then entry success "Session active"
     else session INITIAL_PROCESS_STATUS)
    (if Status_eqb (status (encrypt prev)) success
     then entry success "Encryption complete"
     else encrypt INITIAL_PROCESS_STATUS)
    (decrypt INITIAL_PROCESS_STATUS).
Proof.
  unfold resetStatus_next. simpl.
  destruct (Status_eqb (status (session prev)) success),
           (Status_eqb (status (encrypt prev)) success); reflexivity.
Qed.

End ResetFacts.

(** [resetStatus('session')] puts the three initial idle records back
    and empties the preview, whatever the state was; [resetStatus('encrypt')]
    puts the initial idle records back on encrypt and decrypt, empties the
    preview, and leaves the session marked [success] when (and only when)
    it was [success] before. *)
Lemma resetStatus_policy (st : Model.AppState) :
  let after_session := Model.final (App.resetStatus Model.Session) st in
  let after_encrypt := Model.final (App.resetStatus Model.Encrypt) st in
  Model.processStatus after_session = Model.INITIAL_PROCESS_STATUS
  /\ Model.decryptedPreview after_session = Js.JStr ""
  /\ Model.encrypt (Model.processStatus after_encrypt)
     = Model.entry Model.idle "Waiting for file..."
  /\ Model.decrypt (Model.processStatus after_encrypt)
     = Model.entry Model.idle "Waiting for components..."
  /\ Model.decryptedPreview after_encrypt = Js.JStr ""
  /\ Model.status (Model.session (Model.processStatus after_encrypt))
     = (if Model.Status_eqb
             (Model.status (Model.session (Model.processStatus st)))
             Model.success
        then Model.success else Model.idle).
Proof.
  intros after_session after_encrypt. subst after_session after_encrypt.
  rewrite !resetStatus_final. cbn [Model.processStatus Model.decryptedPreview].
  rewrite resetStatus_next_session, resetStatus_next_encrypt.
  destruct (Model.Status_eqb _ Model.success); repeat split; reflexivity.
Qed.

(* ------------------------------------------------------------------ *)
(** ** Running the handlers *)

(** Unfold a handler down to the platform calls it makes. *)
Ltac unfold_js :=
  unfold Model.operation_ok, Model.requests, Model.final, Model.events,
    Model.run,
    View.click_encrypt, View.click_preview, View.click_download,
    View.handleDownload,
    App.Direct.handleGenerateKey, App.Direct.handleEncrypt,
    App.Direct.handleDecryptPreview,
    App.ViaApi.handleGenerateKey, App.ViaApi.handleEncrypt,
    App.ViaApi.handleDecryptPreview,
    Api.initiateSession, Api.encryptFile, Api.decryptFilePreview,
    Api.decryptFileDownload, Api.postFormJson,
    App.Direct.detail_or, App.resetStatus,
    Model.setProcessStatus, Model.setDecryptedPreview,
    Model.setCryptoComponents, Model.setIsLoading, Model.sleep,
    Model.fetch, Model.json, Model.body_text, Model.parse, Model.prop,
    Model.new_Error, Model.to_string,
    Model.finally, Model.try_catch, Model.bind, Model.ret, Model.throw,
    Model.get_state, Model.modify, Model.emit, Model.await.

(** Split on the innermost thing the goal still branches on: what the
    server answered, whether the body parsed, what the parsed value
    holds. *)
Ltac split_match :=
  match goal with
  | |- context [match ?x with _ => _ end] =>
      lazymatch x with
      | context [match _ with _ => _ end] => fail
      | _ => destruct x eqn:?
      end
  end.

Ltac run_js := unfold_js; cbn; repeat (split_match; cbn).

(** The same, looking into the message a [catch] block derives. *)
Ltac run_js_messages :=
  unfold_js; cbn;
  repeat (first [ progress unfold App.ViaApi.derive_message, App.guarded2,
                    App.guarded, App.field, Js.and_then, Js.or_else
                | split_match ];
          cbn).


(** The records of a trace give its statuses. *)
Lemma status_updates_of_records (p : Model.Pipeline) (evs : list Model.Event) :
  Model.status_updates p evs = map Model.status (Model.record_updates p evs).
Proof.
  unfold Model.status_updates, Model.record_updates.
  induction evs as [|ev evs IH]; [reflexivity|].
  destruct ev; simpl; rewrite ?IH; reflexivity.
Qed.

(** A run that settles with a message settles. *)
Lemma operation_settles_ok (p : Model.Pipeline) (m : Model.M unit)
    (st : Model.AppState) :
  Model.operation_settles p m st -> Model.operation_ok p m st.
Proof.
  intros [H1 [H2 [x [H3 [H4 [_ H5]]]]]].
  split; [exact H1 | split; [exact H2 |]].
  exists (Model.status x).
  split; [|split; [exact H4 | rewrite H5; reflexivity]].
  rewrite status_updates_of_records, H3. reflexivity.
Qed.



Section HandlerFacts.
Import Js Model App.

Variable P : Platform.







(** The message of the first revision can be the empty string: the
    server answers 500 with the body [{"detail":[]}], the empty array is
    truthy, and [new Error([])] has the message [""]. *)
Lemma Direct_handleEncrypt_empty_message :
  encrypt (processStatus
             (final (Direct.handleEncrypt Samples.empty_list Scenarios.notes)
                    initial_state))
  = entry error ""
  /\ message_shown Encrypt
       (Direct.handleEncrypt Samples.empty_list Scenarios.notes)
       initial_state = false.
Proof. split; vm_compute; reflexivity. Qed.

(** Whatever the server does, a run of [handleGenerateKey] ends with the
    encrypt and decrypt pipelines on their initial records and with an
    empty preview. *)
Lemma Direct_handleGenerateKey_clears_downstream (sim : bool) (st : AppState) :
  let d := final (Direct.handleGenerateKey P sim) st in
  encrypt (processStatus d) = encrypt INITIAL_PROCESS_STATUS
  /\ decrypt (processStatus d) = decrypt INITIAL_PROCESS_STATUS
  /\ decryptedPreview d = JStr "".
Proof.
  run_js; repeat split; reflexivity.
Qed.

Lemma ViaApi_handleGenerateKey_clears_downstream (sim : bool) (st : AppState) :
  let a := final (ViaApi.handleGenerateKey P sim) st in
  encrypt (processStatus a) = encrypt INITIAL_PROCESS_STATUS
  /\ decrypt (processStatus a) = decrypt INITIAL_PROCESS_STATUS
  /\ decryptedPreview a = JStr "".
Proof.
  run_js; repeat split; reflexivity.
Qed.

Lemma same_user_run (sim : bool) (st : AppState) :
  currentUser st = peerUser st ->
  let refused :=
    mkApp (currentUser st) (peerUser st) (isLoading st)
          (with_session (entry error "User and Peer cannot be the same.")
                        INITIAL_PROCESS_STATUS)
          (cryptoComponents st) (JStr "") in
  final (Direct.handleGenerateKey P sim) st = refused
  /\ requests (Direct.handleGenerateKey P sim) st = []
  /\ final (ViaApi.handleGenerateKey P sim) st = refused
  /\ requests (ViaApi.handleGenerateKey P sim) st = [].
Proof.
  intros H refused. subst refused.
  assert (E : String.eqb (currentUser st) (peerUser st) = true)
    by (rewrite H; apply String.eqb_refl).
  unfold_js. cbn. rewrite E. cbn.
  repeat split; reflexivity.
Qed.

Lemma preview_requests (c : Components) (st : AppState) :
  let form := [("user_id", FormText (currentUser st));
               ("peer_id", FormText (peerUser st));
               ("nonce", FormText (nonce c));
               ("tag", FormText (tag c));
               ("ciphertext", FormText (ciphertext c))] in
  requests (ViaApi.handleDecryptPreview P c) st
  = [mkRequest (Api.API_URL P ++ "/api/v1/decrypt-file-preview") "POST" form]
  /\ requests (Direct.handleDecryptPreview P c) st
  = [mkRequest "http://localhost:8000/api/v1/decrypt-file-preview" "POST" form].
Proof.
  split; run_js; reflexivity.
Qed.

Lemma decryptFilePreview_request (u p n t c : string) (st : AppState) :
  requests (Api.decryptFilePreview P u p n t c) st
  = [mkRequest (Api.API_URL P ++ "/api/v1/decrypt-file-preview") "POST"
       [("user_id", FormText u); ("peer_id", FormText p);
        ("nonce", FormText n); ("tag", FormText t);
        ("ciphertext", FormText c)]].
Proof. run_js; reflexivity. Qed.

(** What [handleEncrypt] stores is what the server's JSON parsed to. *)
Lemma handleEncrypt_stores_data (f : File) (st : AppState) (r : Response)
    (data : value) :
  (forall req, network P req = Responded r) ->
  ok r = true ->
  res_text r <> "" ->
  JSON_parse P (res_text r) = inl data ->
  cryptoComponents (final (ViaApi.handleEncrypt P f) st) = data
  /\ cryptoComponents (final (Direct.handleEncrypt P f) st) = data.
Proof.
  intros Hn Hok Ht Hp. apply String.eqb_neq in Ht.
  unfold_js. cbn. rewrite !Hn. cbn. rewrite Hok, Ht, Hp. cbn.
  split; reflexivity.
Qed.

Lemma Direct_preview_failure (c : Components) (st : AppState) :
  status (decrypt (processStatus (final (Direct.handleDecryptPreview P c) st)))
  = error ->
  exists m : string,
    message (decrypt (processStatus (final (Direct.handleDecryptPreview P c) st)))
    = JStr m
    /\ decryptedPreview (final (Direct.handleDecryptPreview P c) st)
       = JStr ("Error: " ++ m).
Proof.
  run_js; intros H; try discriminate H; eexists; split; reflexivity.
Qed.

Lemma ViaApi_preview_failure (c : Components) (st : AppState) :
  status (decrypt (processStatus (final (ViaApi.handleDecryptPreview P c) st)))
  = error ->
  exists m : string,
    message (decrypt (processStatus (final (ViaApi.handleDecryptPreview P c) st)))
    = JStr m
    /\ decryptedPreview (final (ViaApi.handleDecryptPreview P c) st)
       = JStr ("Error: " ++ m).
Proof.
  run_js_messages; intros H; try discriminate H;
    try (simpl in *; congruence); eexists; split; reflexivity.
Qed.

(** A request that gets no 2xx answer, or no answer, fails the preview. *)
Lemma preview_fails_without_2xx (c : Components) (st : AppState) :
  (forall req, match network P req with
               | Responded r => ok r = false
               | NetworkFailure _ => True
               end) ->
  status (decrypt (processStatus (final (Direct.handleDecryptPreview P c) st)))
  = error
  /\ status (decrypt (processStatus (final (ViaApi.handleDecryptPreview P c) st)))
     = error.
Proof.
  intros Hn. unfold_js. cbn.
  split.
  - match goal with
    | |- context [network P ?q] => specialize (Hn q); destruct (network P q)
    end; cbn; [rewrite Hn; cbn|]; repeat (split_match; cbn); reflexivity.
  - match goal with
    | |- context [network P ?q] => specialize (Hn q); destruct (network P q)
    end; cbn; [rewrite Hn; cbn|]; repeat (split_match; cbn); reflexivity.
Qed.

(** The session status after a non-2xx answer. *)
Lemma session_status_of_response (sim : bool) (st : AppState) (r : Response) :
  String.eqb (currentUser st) (peerUser st) = false ->
  (forall req, network P req = Responded r) ->
  ok r = false ->
  let expected := if Z.eqb (res_status r) 403 then eavesdropper else error in
  status (session (processStatus (final (Direct.handleGenerateKey P sim) st)))
  = expected
  /\ status (session (processStatus (final (ViaApi.handleGenerateKey P sim) st)))
  = expected.
Proof.
  intros Hu Hn Hok expected. subst expected.
  unfold_js. cbn. rewrite Hu. cbn. rewrite !Hn. cbn. rewrite Hok. cbn.
  unfold is_number, field. cbn.
  repeat (split_match; cbn).
  all: try discriminate; split; reflexivity.
Qed.

(** First revision: on 403 the message is the [detail] of the body, unless
    it is falsy. *)
Lemma Direct_session_403 (sim : bool) (st : AppState) (r : Response)
    (v d : value) :
  String.eqb (currentUser st) (peerUser st) = false ->
  (forall req, network P req = Responded r) ->
  res_status r = 403%Z ->
  JSON_parse P (res_text r) = inl v ->
  getProp v "detail" = Some d ->
  session (processStatus (final (Direct.handleGenerateKey P sim) st))
  = mkStatus eavesdropper (Some eavesdropper)
             (or_else d (JStr "Attack detected. Session terminated.")).
Proof.
  intros Hu Hn Hs Hp Hd. unfold_js. cbn. rewrite Hu. cbn. rewrite Hn. cbn.
  unfold ok. rewrite Hs. cbn. rewrite Hp. cbn. rewrite Hd. cbn. reflexivity.
Qed.

(** Second revision: on 403 the message is the fallback, whatever the
    body says; what [postFormJson] throws has no [body]. *)
Lemma ViaApi_session_403 (sim : bool) (st : AppState) (r : Response) :
  String.eqb (currentUser st) (peerUser st) = false ->
  (forall req, network P req = Responded r) ->
  res_status r = 403%Z ->
  session (processStatus (final (ViaApi.handleGenerateKey P sim) st))
  = mkStatus eavesdropper (Some eavesdropper)
             (JStr "Attack detected. Session terminated.").
Proof.
  intros Hu Hn Hs. unfold_js. cbn. rewrite Hu. cbn. rewrite Hn. cbn.
  unfold ok. rewrite Hs. cbn.
  repeat (split_match; cbn); reflexivity.
Qed.


(** Without a response the rejection of [fetch] reaches the caller as it
    is. *)
Lemma postFormJson_network_failure (path : string) (form : FormData)
    (st : AppState) (msg : string) :
  network P (mkRequest (Api.API_URL P ++ path) "POST" form) = NetworkFailure msg ->
  fst (run (Api.postFormJson P path form) st) = Thrown (Error msg).
Proof.
  intros Hn. unfold_js. cbn. rewrite Hn. reflexivity.
Qed.

End HandlerFacts.

(* ------------------------------------------------------------------ *)
(** ** The claims about the handlers *)

(** C3: when [currentUser] equals [peerUser], [handleGenerateKey] (either
    revision) leaves the session in [error] with the message "User and
    Peer cannot be the same.", the other two pipelines on their initial
    records and the preview empty, touches nothing else, and issues no
    request. *)
Theorem same_user_fails_locally
    (P : Model.Platform) (simulateEavesdropper : bool) (st : Model.AppState) :
  Model.currentUser st = Model.peerUser st ->
  let refused :=
    Model.mkApp (Model.currentUser st) (Model.peerUser st) (Model.isLoading st)
      (Model.with_session
         (Model.entry Model.error "User and Peer cannot be the same.")
         Model.INITIAL_PROCESS_STATUS)
      (Model.cryptoComponents st) (Js.JStr "") in
  Model.final (App.Direct.handleGenerateKey P simulateEavesdropper) st = refused
  /\ Model.requests (App.Direct.handleGenerateKey P simulateEavesdropper) st = []
  /\ Model.final (App.ViaApi.handleGenerateKey P simulateEavesdropper) st = refused
  /\ Model.requests (App.ViaApi.handleGenerateKey P simulateEavesdropper) st = [].
Proof.
  intros H. apply same_user_run. exact H.
Qed.

Lemma same_user_fails_locally_witness :
  Model.status
    (Model.session
       (Model.processStatus
          (Model.final (App.ViaApi.handleGenerateKey Scenarios.eve true)
                       Scenarios.alice_alice)))
  = Model.error
  /\ Model.requests (App.ViaApi.handleGenerateKey Scenarios.eve true)
                    Scenarios.alice_alice = [].
Proof.
  destruct (same_user_fails_locally Scenarios.eve true Scenarios.alice_alice
              eq_refl) as [_ [_ [Hf Hr]]].
  split.
  - rewrite Hf. reflexivity.
  - exact Hr.
Defined.



(** C9: the request of the decrypt preview carries the nonce, the tag and
    the ciphertext it was given, as they are, next to the two user names:
    so says the form [decryptFilePreview] builds, and so say the requests
    of both revisions of [handleDecryptPreview]. *)
Theorem preview_forwards_triple_verbatim
    (P : Model.Platform) (user_id peer_id : string)
    (components : Model.Components) (st : Model.AppState) :
  Model.requests
    (Api.decryptFilePreview P user_id peer_id (Model.nonce components)
       (Model.tag components) (Model.ciphertext components)) st
  = [Model.mkRequest (Api.API_URL P ++ "/api/v1/decrypt-file-preview") "POST"
       [("user_id", Model.FormText user_id);
        ("peer_id", Model.FormText peer_id);
        ("nonce", Model.FormText (Model.nonce components));
        ("tag", Model.FormText (Model.tag components));
        ("ciphertext", Model.FormText (Model.ciphertext components))]]
  /\ Model.requests (App.ViaApi.handleDecryptPreview P components) st
  = [Model.mkRequest (Api.API_URL P ++ "/api/v1/decrypt-file-preview") "POST"
       [("user_id", Model.FormText (Model.currentUser st));
        ("peer_id", Model.FormText (Model.peerUser st));
        ("nonce", Model.FormText (Model.nonce components));
        ("tag", Model.FormText (Model.tag components));
        ("ciphertext", Model.FormText (Model.ciphertext components))]]
  /\ Model.requests (App.Direct.handleDecryptPreview P components) st
  = [Model.mkRequest "http://localhost:8000/api/v1/decrypt-file-preview" "POST"
       [("user_id", Model.FormText (Model.currentUser st));
        ("peer_id", Model.FormText (Model.peerUser st));
        ("nonce", Model.FormText (Model.nonce components));
        ("tag", Model.FormText (Model.tag components));
        ("ciphertext", Model.FormText (Model.ciphertext components))]].
Proof.
  split; [apply decryptFilePreview_request | apply preview_requests].
Qed.

(** C10: a decrypt preview whose request gets no 2xx answer ends with the
    decrypt pipeline in [error]; and a decrypt preview that ends in
    [error], for whatever reason, has a string [m] as the message of the
    decrypt pipeline and the string "Error: " followed by [m] as the
    preview, which is thus not left empty.  Both hold for either
    revision of the handler. *)
Theorem failed_preview_shows_error
    (P : Model.Platform) (components : Model.Components) (st : Model.AppState) :
  let direct := Model.final (App.Direct.handleDecryptPreview P components) st in
  let via_api := Model.final (App.ViaApi.handleDecryptPreview P components) st in
  ((forall req, match Model.network P req with
                | Model.Responded r => Model.ok r = false
                | Model.NetworkFailure _ => True
                end) ->
   Model.status (Model.decrypt (Model.processStatus direct)) = Model.error
   /\ Model.status (Model.decrypt (Model.processStatus via_api)) = Model.error)
  /\ (Model.status (Model.decrypt (Model.processStatus direct)) = Model.error ->
      exists m : string,
        Model.message (Model.decrypt (Model.processStatus direct)) = Js.JStr m
        /\ Model.decryptedPreview direct = Js.JStr ("Error: " ++ m))
  /\ (Model.status (Model.decrypt (Model.processStatus via_api)) = Model.error ->
      exists m : string,
        Model.message (Model.decrypt (Model.processStatus via_api)) = Js.JStr m
        /\ Model.decryptedPreview via_api = Js.JStr ("Error: " ++ m)).
Proof.
  intros direct via_api. subst direct via_api.
  split; [apply preview_fails_without_2xx|].
  split; [apply Direct_preview_failure | apply ViaApi_preview_failure].
Qed.

Lemma failed_preview_shows_error_witness :
  exists m : string,
    Model.message
      (Model.decrypt
         (Model.processStatus
            (Model.final
               (App.ViaApi.handleDecryptPreview Scenarios.broken Scenarios.triple)
               Scenarios.all_done)))
    = Js.JStr m
    /\ Model.decryptedPreview
         (Model.final
            (App.ViaApi.handleDecryptPreview Scenarios.broken Scenarios.triple)
            Scenarios.all_done)
       = Js.JStr ("Error: " ++ m).
Proof.
  destruct (failed_preview_shows_error Scenarios.broken Scenarios.triple
              Scenarios.all_done) as [Hfail [_ Hshow]].
  apply Hshow. apply Hfail.
  intros req. vm_compute. reflexivity.
Defined.

(** C2, at the scenario of the specification (session initiation
    answered with 403 and the body [{"detail":"Eve detected"}]): both
    revisions end with the session in [eavesdropper]; the first revision
    shows "Eve detected", the second the fixed text "Attack detected.
    Session terminated.", because what it catches from [postFormJson]
    has no [body] to read the detail from. *)
Theorem eve_detected_message_lost :
  Model.session
    (Model.processStatus
       (Model.final (App.ViaApi.handleGenerateKey Scenarios.eve false)
                    Model.initial_state))
  = Model.mkStatus Model.eavesdropper (Some Model.eavesdropper)
      (Js.JStr "Attack detected. Session terminated.")
  /\ Model.session
       (Model.processStatus
          (Model.final (App.Direct.handleGenerateKey Scenarios.eve false)
                       Model.initial_state))
     = Model.mkStatus Model.eavesdropper (Some Model.eavesdropper)
         (Js.JStr "Eve detected").
Proof.
  split.
  - apply (ViaApi_session_403 Scenarios.eve false Model.initial_state
             (Model.mkResponse 403 Scenarios.eve_body));
      [reflexivity | intros req; reflexivity | reflexivity].
  - apply (Direct_session_403 Scenarios.eve false Model.initial_state
             (Model.mkResponse 403 Scenarios.eve_body)
             (Js.JObj [("detail", Js.JStr "Eve detected")])
             (Js.JStr "Eve detected"));
      [reflexivity | intros req; reflexivity | reflexivity
      | vm_compute; reflexivity | reflexivity].
Qed.

(** An empty [detail] is falsy, so the first revision too falls back to
    the fixed text. *)
Lemma empty_detail_falls_back :
  Model.message
    (Model.session
       (Model.processStatus
          (Model.final (App.Direct.handleGenerateKey Scenarios.eve_silent false)
                       Model.initial_state)))
  = Js.JStr "Attack detected. Session terminated.".
Proof. vm_compute. reflexivity. Qed.




(* ------------------------------------------------------------------ *)
(** ** The gate on the controls *)

Section GateFacts.
Import Js Model View.

(** What the gate does reach: the card and its inputs. *)
Lemma gate_reaches_cards (sc : Screen) :
  Encryptor_card_inert sc = negb (App.isSessionReady (app sc))
  /\ Encryptor_file_input_disabled sc = negb (App.isSessionReady (app sc))
  /\ Decryptor_card_inert sc = negb (App.isEncryptReady (app sc))
  /\ Decryptor_input_disabled sc = negb (App.isEncryptReady (app sc)).
Proof. repeat split; reflexivity. Qed.

(** What decides whether the three buttons are disabled: [isLoading],
    and for Encrypt a chosen file; not the gate. *)
Lemma buttons_ignore_gate (sc : Screen) :
  Encryptor_button_disabled sc
  = (match selectedFile sc with Some _ => false | None => true end
     || isLoading (app sc))
  /\ Decryptor_preview_button_disabled sc = isLoading (app sc)
  /\ Decryptor_download_button_disabled sc = isLoading (app sc).
Proof.
  unfold Encryptor_button_disabled, Decryptor_preview_button_disabled,
    Decryptor_download_button_disabled, Button_disabled.
  destruct (selectedFile sc), (isLoading (app sc)); cbn;
    repeat split; reflexivity.
Qed.

End GateFacts.

(** C1, on the screen [App] mounts with (every pipeline [idle], nothing
    loading): the Decryptor card is inert and its text inputs are
    disabled, but the buttons "Preview Decryption" and "Download Decrypted
    File" are not, and a click that reaches them issues the decrypt
    requests; likewise, once a file has been chosen, the Encrypt button
    stays enabled after the session has left [success], and a click that
    reaches it issues the encrypt request. *)
Theorem buttons_enabled_while_gate_closed (P : Model.Platform) :
  App.isEncryptReady (View.app Scenarios.fresh_screen) = false
  /\ View.Decryptor_card_inert Scenarios.fresh_screen = true
  /\ View.Decryptor_input_disabled Scenarios.fresh_screen = true
  /\ View.Decryptor_preview_button_disabled Scenarios.fresh_screen = false
  /\ View.Decryptor_download_button_disabled Scenarios.fresh_screen = false
  /\ Model.requests
       (View.click_preview (App.ViaApi.handleDecryptPreview P)
                           Scenarios.fresh_screen)
       (View.app Scenarios.fresh_screen)
     = [Model.mkRequest (Api.API_URL P ++ "/api/v1/decrypt-file-preview") "POST"
          [("user_id", Model.FormText "Alice"); ("peer_id", Model.FormText "Bob");
           ("nonce", Model.FormText "n1"); ("tag", Model.FormText "t1");
           ("ciphertext", Model.FormText "c1")]]
  /\ Model.requests (View.click_download P Scenarios.fresh_screen)
                    (View.app Scenarios.fresh_screen)
     = [Model.mkRequest "http://localhost:8000/api/v1/decrypt-file" "POST"
          [("user_id", Model.FormText "Alice"); ("peer_id", Model.FormText "Bob");
           ("nonce", Model.FormText "n1"); ("tag", Model.FormText "t1");
           ("ciphertext", Model.FormText "c1")]]
  /\ App.isSessionReady (View.app Scenarios.stale_file_screen) = false
  /\ View.Encryptor_card_inert Scenarios.stale_file_screen = true
  /\ View.Encryptor_button_disabled Scenarios.stale_file_screen = false
  /\ Model.requests
       (View.click_encrypt (App.ViaApi.handleEncrypt P)
                           Scenarios.stale_file_screen)
       (View.app Scenarios.stale_file_screen)
     = [Model.mkRequest (Api.API_URL P ++ "/api/v1/encrypt-file") "POST"
          [("user_id", Model.FormText "Alice"); ("peer_id", Model.FormText "Bob");
           ("file", Model.FormFile Scenarios.notes (Some "notes.txt"))]].
Proof.
  do 5 (split; [reflexivity|]).
  split; [run_js; reflexivity|].
  split; [run_js; reflexivity|].
  do 3 (split; [reflexivity|]).
  run_js; reflexivity.
Qed.

(* ------------------------------------------------------------------ *)
(** ** The shape of a run *)

Section RunShapes.
Import Js Model App View Cards.
Variable P : Platform.

Ltac close_shape := do 2 eexists; repeat split; reflexivity.

(** Whatever the server does, [handleEncrypt] returns, and it leaves
    this state and this trace, for some record [x] on the encrypt
    pipeline and some stored components. *)
Lemma Direct_handleEncrypt_shape (f : File) (st : AppState) :
  let reset := resetStatus_next Encrypt (processStatus st) in
  let busy := with_encrypt (entry loading "Encrypting file...") reset in
  let at_issue := mkApp (currentUser st) (peerUser st) true busy
                        empty_components (JStr "") in
  exists (x : ProcessStatus) (stored : value),
    type_agrees x = true
    /\ run (Direct.handleEncrypt P f) st =
       (Returned tt,
        mkWorld (mkApp (currentUser st) (peerUser st) false
                       (with_encrypt x reset) stored (JStr ""))
                [EvStatus reset; EvStatus busy; EvSleep 1000;
                 EvFetch (mkRequest "http://localhost:8000/api/v1/encrypt-file"
                            "POST"
                            [("user_id", FormText (currentUser st));
                             ("peer_id", FormText (peerUser st));
                             ("file", FormFile f None)]) at_issue;
                 EvStatus (with_encrypt x reset)]).
Proof. unfold type_agrees. run_js; close_shape. Qed.

Lemma ViaApi_handleEncrypt_shape (f : File) (st : AppState) :
  let reset := resetStatus_next Encrypt (processStatus st) in
  let busy := with_encrypt (entry loading "Encrypting file...") reset in
  let at_issue := mkApp (currentUser st) (peerUser st) true busy
                        empty_components (JStr "") in
  exists (x : ProcessStatus) (stored : value),
    type_agrees x = true
    /\ run (ViaApi.handleEncrypt P f) st =
       (Returned tt,
        mkWorld (mkApp (currentUser st) (peerUser st) false
                       (with_encrypt x reset) stored (JStr ""))
                [EvStatus reset; EvStatus busy; EvSleep 1000;
                 EvFetch (mkRequest (Api.API_URL P ++ "/api/v1/encrypt-file")
                            "POST"
                            [("user_id", FormText (currentUser st));
                             ("peer_id", FormText (peerUser st));
                             ("file", FormFile f (Some (file_name f)))]) at_issue;
                 EvStatus (with_encrypt x reset)]).
Proof. unfold type_agrees. run_js; close_shape. Qed.

Lemma Direct_handleDecryptPreview_shape (c : Components) (st : AppState) :
  let reset := resetStatus_next Decrypt (processStatus st) in
  let busy := with_decrypt (entry loading "Decrypting preview...") reset in
  let at_issue := mkApp (currentUser st) (peerUser st) true busy
                        (cryptoComponents st) (JStr "") in
  exists (x : ProcessStatus) (shown : value),
    type_agrees x = true
    /\ run (Direct.handleDecryptPreview P c) st =
       (Returned tt,
        mkWorld (mkApp (currentUser st) (peerUser st) false
                       (with_decrypt x reset) (cryptoComponents st) shown)
                [EvStatus reset; EvStatus busy; EvSleep 1000;
                 EvFetch (mkRequest
                            "http://localhost:8000/api/v1/decrypt-file-preview"
                            "POST"
                            [("user_id", FormText (currentUser st));
                             ("peer_id", FormText (peerUser st));
                             ("nonce", FormText (nonce c));
                             ("tag", FormText (tag c));
                             ("ciphertext", FormText (ciphertext c))]) at_issue;
                 EvStatus (with_decrypt x reset)]).
Proof. unfold type_agrees. run_js; close_shape. Qed.

Lemma ViaApi_handleDecryptPreview_shape (c : Components) (st : AppState) :
  let reset := resetStatus_next Decrypt (processStatus st) in
  let busy := with_decrypt (entry loading "Decrypting preview...") reset in
  let at_issue := mkApp (currentUser st) (peerUser st) true busy
                        (cryptoComponents st) (JStr "") in
  exists (x : ProcessStatus) (shown : value),
    type_agrees x = true
    /\ run (ViaApi.handleDecryptPreview P c) st =
       (Returned tt,
        mkWorld (mkApp (currentUser st) (peerUser st) false
                       (with_decrypt x reset) (cryptoComponents st) shown)
                [EvStatus reset; EvStatus busy; EvSleep 1000;
                 EvFetch (mkRequest
                            (Api.API_URL P ++ "/api/v1/decrypt-file-preview")
                            "POST"
                            [("user_id", FormText (currentUser st));
                             ("peer_id", FormText (peerUser st));
                             ("nonce", FormText (nonce c));
                             ("tag", FormText (tag c));
                             ("ciphertext", FormText (ciphertext c))]) at_issue;
                 EvStatus (with_decrypt x reset)]).
Proof.
  unfold type_agrees.
  run_js_messages; try (simpl in *; congruence); close_shape.
Qed.

Lemma Direct_handleGenerateKey_shape (sim : bool) (st : AppState) :
  String.eqb (currentUser st) (peerUser st) = false ->
  let busy := with_session
                (entry loading "Establishing secure session... (QKD running)")
                INITIAL_PROCESS_STATUS in
  let at_issue := mkApp (currentUser st) (peerUser st) true busy
                        (cryptoComponents st) (JStr "") in
  exists x : ProcessStatus,
    type_agrees x = true
    /\ run (Direct.handleGenerateKey P sim) st =
       (Returned tt,
        mkWorld (mkApp (currentUser st) (peerUser st) false
                       (with_session x INITIAL_PROCESS_STATUS)
                       (cryptoComponents st) (JStr ""))
                [EvStatus INITIAL_PROCESS_STATUS; EvStatus busy; EvSleep 1500;
                 EvFetch (mkRequest
                            "http://localhost:8000/api/v1/session/initiate"
                            "POST"
                            [("user_id", FormText (currentUser st));
                             ("peer_id", FormText (peerUser st));
                             ("simulate_eavesdropper",
                              FormText (if sim then "true" else "false"))])
                         at_issue;
                 EvStatus (with_session x INITIAL_PROCESS_STATUS)]).
Proof.
  intros H. unfold type_agrees. unfold_js; cbn. rewrite H. cbn.
  repeat (split_match; cbn); eexists; repeat split; reflexivity.
Qed.

Lemma ViaApi_handleGenerateKey_shape (sim : bool) (st : AppState) :
  String.eqb (currentUser st) (peerUser st) = false ->
  let busy := with_session
                (entry loading "Establishing secure session... (QKD running)")
                INITIAL_PROCESS_STATUS in
  let at_issue := mkApp (currentUser st) (peerUser st) true busy
                        (cryptoComponents st) (JStr "") in
  exists x : ProcessStatus,
    type_agrees x = true
    /\ run (ViaApi.handleGenerateKey P sim) st =
       (Returned tt,
        mkWorld (mkApp (currentUser st) (peerUser st) false
                       (with_session x INITIAL_PROCESS_STATUS)
                       (cryptoComponents st) (JStr ""))
                [EvStatus INITIAL_PROCESS_STATUS; EvStatus busy; EvSleep 1500;
                 EvFetch (mkRequest
                            (Api.API_URL P ++ "/api/v1/session/initiate")
                            "POST"
                            [("user_id", FormText (currentUser st));
                             ("peer_id", FormText (peerUser st));
                             ("simulate_eavesdropper",
                              FormText (if sim then "true" else "false"))])
                         at_issue;
                 EvStatus (with_session x INITIAL_PROCESS_STATUS)]).
Proof.
  intros H. unfold type_agrees. unfold_js; cbn. rewrite H. cbn.
  repeat (split_match; cbn); eexists; repeat split; reflexivity.
Qed.

(** The run of [handleGenerateKey] when the two users are the same. *)
Lemma same_user_shape (sim : bool) (st : AppState) :
  String.eqb (currentUser st) (peerUser st) = true ->
  let refused := with_session (entry error "User and Peer cannot be the same.")
                              INITIAL_PROCESS_STATUS in
  let after := mkApp (currentUser st) (peerUser st) (isLoading st) refused
                     (cryptoComponents st) (JStr "") in
  run (Direct.handleGenerateKey P sim) st
  = (Returned tt, mkWorld after [EvStatus refused])
  /\ run (ViaApi.handleGenerateKey P sim) st
  = (Returned tt, mkWorld after [EvStatus refused]).
Proof.
  intros H. unfold_js. cbn. rewrite H. cbn. split; reflexivity.
Qed.

End RunShapes.

(* ------------------------------------------------------------------ *)
(** ** Two handlers at once *)

Section OverlapFacts.
Import Js Model App View Cards.
Variable P : Platform.

(** While [handleEncrypt] sleeps, [isLoading] is set and the session
    pipeline is not [loading]: Generate Secure Key can be clicked. *)
Lemma generate_enabled_during_sleep (sim : bool) (f : File) (st : AppState)
    (sc : Screen) :
  let enabled_after e g :=
    SessionManager_button_disabled
      (mkScreen (state (overlapped [First] e g st))
                (selectedFile sc) (components sc)) = false in
  enabled_after (Direct.handleEncrypt P f) (Direct.handleGenerateKey P sim)
  /\ enabled_after (ViaApi.handleEncrypt P f) (ViaApi.handleGenerateKey P sim).
Proof.
  unfold overlapped, SessionManager_button_disabled, Button_disabled.
  unfold_js. cbn. unfold resetStatus_next. cbn.
  destruct (Status_eqb _ success); split; reflexivity.
Qed.

(** Generate Secure Key is clicked while [handleEncrypt] sleeps, and
    [handleEncrypt] ends before the sleep of [handleGenerateKey] is
    over: two requests leave, the first with [isLoading] set and the
    session shown as [loading], the second with [isLoading] cleared. *)
Lemma Direct_generate_during_encrypt (sim : bool) (f : File) (st : AppState) :
  String.eqb (currentUser st) (peerUser st) = false ->
  exists s1 s2 : AppState,
    fetch_snapshots
      (trace (overlapped Scenarios.generate_during_encrypt
                (Direct.handleEncrypt P f) (Direct.handleGenerateKey P sim) st))
    = [s1; s2]
    /\ isLoading s1 = true
    /\ status (session (processStatus s1)) = loading
    /\ isLoading s2 = false
    /\ status (session (processStatus s2)) = loading.
Proof.
  intros H. unfold overlapped, Scenarios.generate_during_encrypt.
  unfold_js. cbn. rewrite H. cbn.
  repeat (split_match; cbn).
  all: do 2 eexists; repeat split; reflexivity.
Qed.

Lemma ViaApi_generate_during_encrypt (sim : bool) (f : File) (st : AppState) :
  String.eqb (currentUser st) (peerUser st) = false ->
  exists s1 s2 : AppState,
    fetch_snapshots
      (trace (overlapped Scenarios.generate_during_encrypt
                (ViaApi.handleEncrypt P f) (ViaApi.handleGenerateKey P sim) st))
    = [s1; s2]
    /\ isLoading s1 = true
    /\ status (session (processStatus s1)) = loading
    /\ isLoading s2 = false
    /\ status (session (processStatus s2)) = loading.
Proof.
  intros H. unfold overlapped, Scenarios.generate_during_encrypt.
  unfold_js. cbn. rewrite H. cbn.
  repeat (split_match; cbn).
  all: do 2 eexists; repeat split; reflexivity.
Qed.

End OverlapFacts.

(* ------------------------------------------------------------------ *)
(** ** What every run of a handler keeps *)

(** Bring in the shape of the run of one handler. *)
Ltac use_shape L :=
  let Hs := fresh "Hs" in
  pose proof L as Hs; cbv zeta in Hs;
  let x := fresh "x" in
  let y := fresh "y" in
  let Ht := fresh "Ht" in
  let E := fresh "E" in
  first [ destruct Hs as [x [y [Ht E]]] | destruct Hs as [x [Ht E]] ];
  unfold Model.requests, Model.final, Model.events; rewrite E;
  cbn [fst snd Model.state Model.trace].

(** Finish a goal about what a handler resets. *)
Ltac reset_goal :=
  unfold App.resetStatus_next; cbn;
  try destruct (Model.Status_eqb _ Model.success);
  repeat split;
  first [ reflexivity
        | eexists; reflexivity
        | intros _; eexists; reflexivity
        | repeat constructor ].

(** C4: [handleGenerateKey], when the two users differ, starts by
    setting the three pipelines to their initial idle records, whatever
    they were.  Every run of it, in either revision, with any users and
    any answer, gives the encrypt and decrypt pipelines nothing but their
    initial idle records and ends with them, and the preview is empty
    when its request leaves and when it ends.  [handleEncrypt], in
    either revision, starts by setting encrypt and decrypt to their
    initial idle records and the session to "Session active" if it was
    [success] and to its initial idle record otherwise; no later update
    of the run changes the session or the decrypt record, and the preview
    is empty when its request leaves and when it ends. *)
Theorem starting_a_pipeline_resets
    (P : Model.Platform) (simulateEavesdropper : bool) (file : Model.File)
    (st : Model.AppState) :
  let idle_session := Model.entry Model.idle "Waiting for key generation..." in
  let idle_encrypt := Model.entry Model.idle "Waiting for file..." in
  let idle_decrypt := Model.entry Model.idle "Waiting for components..." in
  let marker :=
    if Model.Status_eqb (Model.status (Model.session (Model.processStatus st)))
                        Model.success
    then Model.entry Model.success "Session active"
    else idle_session in
  let preview_empty m :=
    Forall (fun s => Model.decryptedPreview s = Js.JStr "")
           (Model.fetch_snapshots (Model.events m st))
    /\ Model.decryptedPreview (Model.final m st) = Js.JStr "" in
  let session_started m :=
    (String.eqb (Model.currentUser st) (Model.peerUser st) = false ->
     exists rest,
       Model.events m st
       = Model.EvStatus (Model.mkProcesses idle_session idle_encrypt idle_decrypt)
           :: rest)
    /\ Forall (eq idle_encrypt)
              (Model.record_updates Model.Encrypt (Model.events m st))
    /\ Forall (eq idle_decrypt)
              (Model.record_updates Model.Decrypt (Model.events m st))
    /\ Model.encrypt (Model.processStatus (Model.final m st)) = idle_encrypt
    /\ Model.decrypt (Model.processStatus (Model.final m st)) = idle_decrypt
    /\ preview_empty m in
  let encrypt_started m :=
    (exists rest,
       Model.events m st
       = Model.EvStatus (Model.mkProcesses marker idle_encrypt idle_decrypt)
           :: rest)
    /\ Forall (eq marker)
              (Model.record_updates Model.Session (Model.events m st))
    /\ Forall (eq idle_decrypt)
              (Model.record_updates Model.Decrypt (Model.events m st))
    /\ Model.session (Model.processStatus (Model.final m st)) = marker
    /\ Model.decrypt (Model.processStatus (Model.final m st)) = idle_decrypt
    /\ preview_empty m in
  session_started (App.Direct.handleGenerateKey P simulateEavesdropper)
  /\ session_started (App.ViaApi.handleGenerateKey P simulateEavesdropper)
  /\ encrypt_started (App.Direct.handleEncrypt P file)
  /\ encrypt_started (App.ViaApi.handleEncrypt P file).
Proof.
  intros idle_session idle_encrypt idle_decrypt marker preview_empty
         session_started encrypt_started.
  subst session_started encrypt_started preview_empty marker
        idle_session idle_encrypt idle_decrypt.
  cbv beta.
  split; [|split; [|split]].
  - destruct (String.eqb (Model.currentUser st) (Model.peerUser st)) eqn:U.
    + destruct (same_user_shape P simulateEavesdropper st U) as [E _].
      unfold Model.final, Model.events. rewrite E.
      cbn [fst snd Model.state Model.trace].
      split; [discriminate|]. reset_goal.
    + use_shape (Direct_handleGenerateKey_shape P simulateEavesdropper st U).
      reset_goal.
  - destruct (String.eqb (Model.currentUser st) (Model.peerUser st)) eqn:U.
    + destruct (same_user_shape P simulateEavesdropper st U) as [_ E].
      unfold Model.final, Model.events. rewrite E.
      cbn [fst snd Model.state Model.trace].
      split; [discriminate|]. reset_goal.
    + use_shape (ViaApi_handleGenerateKey_shape P simulateEavesdropper st U).
      reset_goal.
  - use_shape (Direct_handleEncrypt_shape P file st). reset_goal.
  - use_shape (ViaApi_handleEncrypt_shape P file st). reset_goal.
Qed.

Lemma starting_a_pipeline_resets_witness :
  exists rest,
    Model.events (App.Direct.handleGenerateKey Samples.encrypting false)
                 Scenarios.all_done
    = Model.EvStatus Model.INITIAL_PROCESS_STATUS :: rest.
Proof.
  apply (proj1 (proj1 (starting_a_pipeline_resets
                         Samples.encrypting false Scenarios.notes
                         Scenarios.all_done))).
  reflexivity.
Defined.

(** X1: no handler of [App] lets an exception out, and each one that
    set [isLoading] has put it back to [false] when it returns: the
    encrypt and preview handlers always, the session handler unless the
    two users are the same, in which case it never touched the flag. *)
Theorem handlers_return_and_stop_loading
    (P : Model.Platform) (simulateEavesdropper : bool) (file : Model.File)
    (components : Model.Components) (st : Model.AppState) :
  let same := String.eqb (Model.currentUser st) (Model.peerUser st) in
  (fst (Model.run (App.Direct.handleGenerateKey P simulateEavesdropper) st)
   = Model.Returned tt
   /\ Model.isLoading
        (Model.final (App.Direct.handleGenerateKey P simulateEavesdropper) st)
      = (same && Model.isLoading st))
  /\ (fst (Model.run (App.ViaApi.handleGenerateKey P simulateEavesdropper) st)
      = Model.Returned tt
      /\ Model.isLoading
           (Model.final (App.ViaApi.handleGenerateKey P simulateEavesdropper) st)
         = (same && Model.isLoading st))
  /\ (fst (Model.run (App.Direct.handleEncrypt P file) st) = Model.Returned tt
      /\ Model.isLoading (Model.final (App.Direct.handleEncrypt P file) st)
         = false)
  /\ (fst (Model.run (App.ViaApi.handleEncrypt P file) st) = Model.Returned tt
      /\ Model.isLoading (Model.final (App.ViaApi.handleEncrypt P file) st)
         = false)
  /\ (fst (Model.run (App.Direct.handleDecryptPreview P components) st)
      = Model.Returned tt
      /\ Model.isLoading
           (Model.final (App.Direct.handleDecryptPreview P components) st)
         = false)
  /\ (fst (Model.run (App.ViaApi.handleDecryptPreview P components) st)
      = Model.Returned tt
      /\ Model.isLoading
           (Model.final (App.ViaApi.handleDecryptPreview P components) st)
         = false).
Proof.
  intros same. subst same.
  split; [|split; [|split; [|split; [|split]]]].
  - destruct (String.eqb (Model.currentUser st) (Model.peerUser st)) eqn:U.
    + destruct (same_user_shape P simulateEavesdropper st U) as [E _].
      unfold Model.final. rewrite E. split; reflexivity.
    + use_shape (Direct_handleGenerateKey_shape P simulateEavesdropper st U).
      split; reflexivity.
  - destruct (String.eqb (Model.currentUser st) (Model.peerUser st)) eqn:U.
    + destruct (same_user_shape P simulateEavesdropper st U) as [_ E].
      unfold Model.final. rewrite E. split; reflexivity.
    + use_shape (ViaApi_handleGenerateKey_shape P simulateEavesdropper st U).
      split; reflexivity.
  - use_shape (Direct_handleEncrypt_shape P file st). split; reflexivity.
  - use_shape (ViaApi_handleEncrypt_shape P file st). split; reflexivity.
  - use_shape (Direct_handleDecryptPreview_shape P components st).
    split; reflexivity.
  - use_shape (ViaApi_handleDecryptPreview_shape P components st).
    split; reflexivity.
Qed.

(** Finish a goal about the state on screen when the request leaves. *)
Ltac at_issue_goal :=
  unfold Cards.at_every_fetch, Cards.operation_buttons_disabled,
    Cards.SessionManager_button_disabled, View.Encryptor_button_disabled,
    View.Decryptor_preview_button_disabled,
    View.Decryptor_download_button_disabled, View.Button_disabled,
    App.resetStatus_next;
  cbn; repeat (split_match; cbn); reflexivity.

(** Finish a goal about the buttons at the two requests of an
    overlapped run, given the two states. *)
Ltac overlapped_goal L :=
  let s1 := fresh "s1" in
  let s2 := fresh "s2" in
  let E := fresh "E" in
  let L1 := fresh "L1" in
  let S1 := fresh "S1" in
  let L2 := fresh "L2" in
  let S2 := fresh "S2" in
  destruct L as [s1 [s2 [E [L1 [S1 [L2 S2]]]]]];
  rewrite E;
  unfold Cards.operation_buttons, Cards.SessionManager_button_disabled,
    View.Encryptor_button_disabled, View.Decryptor_preview_button_disabled,
    View.Decryptor_download_button_disabled, View.Button_disabled;
  cbn; rewrite L1, L2, ?S1, ?S2; cbn;
  rewrite ?orb_true_r, ?orb_false_r; cbn;
  try destruct (View.selectedFile _); reflexivity.

(** X2: in the run of any handler of [App] on its own, the Encrypt,
    Preview Decryption and Download buttons are all disabled when its
    request leaves, whatever file and fields the cards hold.  Two
    handlers that overlap do not keep this: when Generate Secure Key is
    clicked while [handleEncrypt] sleeps and [handleEncrypt] ends first,
    the encrypt request leaves with the three buttons disabled, and the
    session request leaves with Preview Decryption and Download enabled,
    and Encrypt enabled if a file is selected. *)
Theorem operation_buttons_disabled_during_requests
    (P : Model.Platform) (simulateEavesdropper : bool) (file : Model.File)
    (components : Model.Components) (st : Model.AppState) (sc : View.Screen) :
  let quiet_at m :=
    Cards.at_every_fetch (Cards.operation_buttons_disabled sc)
                         (Model.events m st) = true in
  let overlapped_at handleEncrypt handleGenerateKey :=
    map (Cards.operation_buttons sc)
        (Model.fetch_snapshots
           (Model.trace
              (Model.overlapped Scenarios.generate_during_encrypt
                                handleEncrypt handleGenerateKey st))) in
  let no_file :=
    match View.selectedFile sc with Some _ => false | None => true end in
  (quiet_at (App.Direct.handleGenerateKey P simulateEavesdropper)
   /\ quiet_at (App.ViaApi.handleGenerateKey P simulateEavesdropper)
   /\ quiet_at (App.Direct.handleEncrypt P file)
   /\ quiet_at (App.ViaApi.handleEncrypt P file)
   /\ quiet_at (App.Direct.handleDecryptPreview P components)
   /\ quiet_at (App.ViaApi.handleDecryptPreview P components))
  /\ (String.eqb (Model.currentUser st) (Model.peerUser st) = false ->
      overlapped_at (App.Direct.handleEncrypt P file)
                    (App.Direct.handleGenerateKey P simulateEavesdropper)
      = [(true, true, true); (no_file, false, false)]
      /\ overlapped_at (App.ViaApi.handleEncrypt P file)
                       (App.ViaApi.handleGenerateKey P simulateEavesdropper)
         = [(true, true, true); (no_file, false, false)]).
Proof.
  intros quiet_at overlapped_at no_file.
  subst quiet_at overlapped_at no_file. cbv beta.
  split; [split; [|split; [|split; [|split; [|split]]]]|].
  - destruct (String.eqb (Model.currentUser st) (Model.peerUser st)) eqn:U.
    + destruct (same_user_shape P simulateEavesdropper st U) as [E _].
      unfold Model.events. rewrite E. reflexivity.
    + use_shape (Direct_handleGenerateKey_shape P simulateEavesdropper st U).
      at_issue_goal.
  - destruct (String.eqb (Model.currentUser st) (Model.peerUser st)) eqn:U.
    + destruct (same_user_shape P simulateEavesdropper st U) as [_ E].
      unfold Model.events. rewrite E. reflexivity.
    + use_shape (ViaApi_handleGenerateKey_shape P simulateEavesdropper st U).
      at_issue_goal.
  - use_shape (Direct_handleEncrypt_shape P file st). at_issue_goal.
  - use_shape (ViaApi_handleEncrypt_shape P file st). at_issue_goal.
  - use_shape (Direct_handleDecryptPreview_shape P components st).
    at_issue_goal.
  - use_shape (ViaApi_handleDecryptPreview_shape P components st).
    at_issue_goal.
  - intros U. split.
    + overlapped_goal
        (Direct_generate_during_encrypt P simulateEavesdropper file st U).
    + overlapped_goal
        (ViaApi_generate_during_encrypt P simulateEavesdropper file st U).
Qed.

Lemma operation_buttons_disabled_during_requests_witness :
  map (Cards.operation_buttons Scenarios.stale_file_screen)
      (Model.fetch_snapshots
         (Model.trace
            (Model.overlapped Scenarios.generate_during_encrypt
               (App.ViaApi.handleEncrypt Samples.encrypting Scenarios.notes)
               (App.ViaApi.handleGenerateKey Samples.encrypting false)
               Model.initial_state)))
  = [(true, true, true); (false, false, false)].
Proof.
  refine (proj2 (proj2 (operation_buttons_disabled_during_requests
                          Samples.encrypting false Scenarios.notes
                          Scenarios.triple Model.initial_state
                          Scenarios.stale_file_screen) _)).
  vm_compute. reflexivity.
Defined.

(** X3: in the run of a handler on its own, the Generate Secure Key
    button is disabled when the request of the session handler leaves,
    and enabled when the request of an encrypt or preview handler
    leaves.  Being enabled while [handleEncrypt] sleeps, it can start a
    second handler, and then neither holds: when [handleEncrypt] ends
    before the sleep of [handleGenerateKey] is over, the button is
    disabled when the encrypt request leaves and enabled when the
    session request leaves. *)
Theorem generate_button_during_requests
    (P : Model.Platform) (simulateEavesdropper : bool) (file : Model.File)
    (components : Model.Components) (st : Model.AppState) (sc : View.Screen) :
  let generate_disabled s :=
    Cards.SessionManager_button_disabled
      (View.mkScreen s (View.selectedFile sc) (View.components sc)) in
  let off_at m :=
    Cards.at_every_fetch generate_disabled (Model.events m st) = true in
  let on_at m :=
    Cards.at_every_fetch (fun s => negb (generate_disabled s))
                         (Model.events m st) = true in
  let during_sleep handleEncrypt handleGenerateKey :=
    generate_disabled
      (Model.state
         (Model.overlapped [Model.First] handleEncrypt handleGenerateKey st)) in
  let overlapped_at handleEncrypt handleGenerateKey :=
    map generate_disabled
        (Model.fetch_snapshots
           (Model.trace
              (Model.overlapped Scenarios.generate_during_encrypt
                                handleEncrypt handleGenerateKey st))) in
  (off_at (App.Direct.handleGenerateKey P simulateEavesdropper)
   /\ off_at (App.ViaApi.handleGenerateKey P simulateEavesdropper)
   /\ on_at (App.Direct.handleEncrypt P file)
   /\ on_at (App.ViaApi.handleEncrypt P file)
   /\ on_at (App.Direct.handleDecryptPreview P components)
   /\ on_at (App.ViaApi.handleDecryptPreview P components))
  /\ (during_sleep (App.Direct.handleEncrypt P file)
                   (App.Direct.handleGenerateKey P simulateEavesdropper)
      = false
      /\ during_sleep (App.ViaApi.handleEncrypt P file)
                      (App.ViaApi.handleGenerateKey P simulateEavesdropper)
         = false)
  /\ (String.eqb (Model.currentUser st) (Model.peerUser st) = false ->
      overlapped_at (App.Direct.handleEncrypt P file)
                    (App.Direct.handleGenerateKey P simulateEavesdropper)
      = [true; false]
      /\ overlapped_at (App.ViaApi.handleEncrypt P file)
                       (App.ViaApi.handleGenerateKey P simulateEavesdropper)
         = [true; false]).
Proof.
  intros generate_disabled off_at on_at during_sleep overlapped_at.
  subst generate_disabled off_at on_at during_sleep overlapped_at. cbv beta.
  split; [split; [|split; [|split; [|split; [|split]]]]|split].
  - destruct (String.eqb (Model.currentUser st) (Model.peerUser st)) eqn:U.
    + destruct (same_user_shape P simulateEavesdropper st U) as [E _].
      unfold Model.events. rewrite E. reflexivity.
    + use_shape (Direct_handleGenerateKey_shape P simulateEavesdropper st U).
      at_issue_goal.
  - destruct (String.eqb (Model.currentUser st) (Model.peerUser st)) eqn:U.
    + destruct (same_user_shape P simulateEavesdropper st U) as [_ E].
      unfold Model.events. rewrite E. reflexivity.
    + use_shape (ViaApi_handleGenerateKey_shape P simulateEavesdropper st U).
      at_issue_goal.
  - use_shape (Direct_handleEncrypt_shape P file st). at_issue_goal.
  - use_shape (ViaApi_handleEncrypt_shape P file st). at_issue_goal.
  - use_shape (Direct_handleDecryptPreview_shape P components st).
    at_issue_goal.
  - use_shape (ViaApi_handleDecryptPreview_shape P components st).
    at_issue_goal.
  - exact (generate_enabled_during_sleep P simulateEavesdropper file st sc).
  - intros U. split.
    + overlapped_goal
        (Direct_generate_during_encrypt P simulateEavesdropper file st U).
    + overlapped_goal
        (ViaApi_generate_during_encrypt P simulateEavesdropper file st U).
Qed.

Lemma generate_button_during_requests_witness :
  map (fun s => Cards.SessionManager_button_disabled
                  (View.mkScreen s (Some Scenarios.notes) Scenarios.triple))
      (Model.fetch_snapshots
         (Model.trace
            (Model.overlapped Scenarios.generate_during_encrypt
               (App.Direct.handleEncrypt Samples.encrypting Scenarios.notes)
               (App.Direct.handleGenerateKey Samples.encrypting false)
               Model.initial_state)))
  = [true; false].
Proof.
  refine (proj1 (proj2 (proj2 (generate_button_during_requests
                                 Samples.encrypting false Scenarios.notes
                                 Scenarios.triple Model.initial_state
                                 Scenarios.stale_file_screen)) _)).
  vm_compute. reflexivity.
Defined.

(** Finish a goal about the records a handler leaves. *)
Ltac records_goal Ht :=
  unfold Cards.types_agree, App.resetStatus_next;
  cbn; repeat (split_match; cbn); rewrite ?Ht; repeat split; reflexivity.

(** X4: after any run of any handler of [App], from any state, each of
    the three records has a [type] equal to its [status]. *)
Theorem handlers_keep_type_with_status
    (P : Model.Platform) (simulateEavesdropper : bool) (file : Model.File)
    (components : Model.Components) (st : Model.AppState) :
  let agree m := Cards.types_agree (Model.processStatus (Model.final m st)) = true in
  agree (App.Direct.handleGenerateKey P simulateEavesdropper)
  /\ agree (App.ViaApi.handleGenerateKey P simulateEavesdropper)
  /\ agree (App.Direct.handleEncrypt P file)
  /\ agree (App.ViaApi.handleEncrypt P file)
  /\ agree (App.Direct.handleDecryptPreview P components)
  /\ agree (App.ViaApi.handleDecryptPreview P components).
Proof.
  intros agree. subst agree. cbv beta.
  split; [|split; [|split; [|split; [|split]]]].
  - destruct (String.eqb (Model.currentUser st) (Model.peerUser st)) eqn:U.
    + destruct (same_user_shape P simulateEavesdropper st U) as [E _].
      unfold Model.final. rewrite E. reflexivity.
    + use_shape (Direct_handleGenerateKey_shape P simulateEavesdropper st U).
      records_goal Ht.
  - destruct (String.eqb (Model.currentUser st) (Model.peerUser st)) eqn:U.
    + destruct (same_user_shape P simulateEavesdropper st U) as [_ E].
      unfold Model.final. rewrite E. reflexivity.
    + use_shape (ViaApi_handleGenerateKey_shape P simulateEavesdropper st U).
      records_goal Ht.
  - use_shape (Direct_handleEncrypt_shape P file st). records_goal Ht.
  - use_shape (ViaApi_handleEncrypt_shape P file st). records_goal Ht.
  - use_shape (Direct_handleDecryptPreview_shape P components st).
    records_goal Ht.
  - use_shape (ViaApi_handleDecryptPreview_shape P components st).
    records_goal Ht.
Qed.

(** X5: whatever the server answers, a run of [handleEncrypt] ends with
    the decrypt pipeline on its initial record, the preview empty, the
    two user names as they were, and the session either marked "Session
    active" (if it was [success]) or back on its initial idle record: a
    session shown as [error] or [eavesdropper] is shown as idle after
    it. *)
Theorem handleEncrypt_leaves
    (P : Model.Platform) (file : Model.File) (st : Model.AppState) :
  let leaves after :=
    Model.decrypt (Model.processStatus after)
    = Model.entry Model.idle "Waiting for components..."
    /\ Model.decryptedPreview after = Js.JStr ""
    /\ Model.session (Model.processStatus after)
       = (if Model.Status_eqb
               (Model.status (Model.session (Model.processStatus st)))
               Model.success
          then Model.entry Model.success "Session active"
          else Model.entry Model.idle "Waiting for key generation...")
    /\ Model.currentUser after = Model.currentUser st
    /\ Model.peerUser after = Model.peerUser st in
  leaves (Model.final (App.Direct.handleEncrypt P file) st)
  /\ leaves (Model.final (App.ViaApi.handleEncrypt P file) st).
Proof.
  intros leaves. subst leaves. cbv beta. split.
  - use_shape (Direct_handleEncrypt_shape P file st).
    unfold App.resetStatus_next. cbn.
    destruct (Model.Status_eqb _ Model.success); repeat split; reflexivity.
  - use_shape (ViaApi_handleEncrypt_shape P file st).
    unfold App.resetStatus_next. cbn.
    destruct (Model.Status_eqb _ Model.success); repeat split; reflexivity.
Qed.

(** X6: whatever the server answers, a run of [handleDecryptPreview]
    leaves the stored components and the two user names as they were,
    and leaves the session and the encrypt pipeline either marked
    ("Session active", "Encryption complete") if they were [success] or
    back on their initial idle records. *)
Theorem handleDecryptPreview_leaves
    (P : Model.Platform) (components : Model.Components) (st : Model.AppState) :
  let leaves after :=
    Model.cryptoComponents after = Model.cryptoComponents st
    /\ Model.session (Model.processStatus after)
       = (if Model.Status_eqb
               (Model.status (Model.session (Model.processStatus st)))
               Model.success
          then Model.entry Model.success "Session active"
          else Model.entry Model.idle "Waiting for key generation...")
    /\ Model.encrypt (Model.processStatus after)
       = (if Model.Status_eqb
               (Model.status (Model.encrypt (Model.processStatus st)))
               Model.success
          then Model.entry Model.success "Encryption complete"
          else Model.entry Model.idle "Waiting for file...")
    /\ Model.currentUser after = Model.currentUser st
    /\ Model.peerUser after = Model.peerUser st in
  leaves (Model.final (App.Direct.handleDecryptPreview P components) st)
  /\ leaves (Model.final (App.ViaApi.handleDecryptPreview P components) st).
Proof.
  intros leaves. subst leaves. cbv beta. split.
  - use_shape (Direct_handleDecryptPreview_shape P components st).
    unfold App.resetStatus_next. cbn.
    destruct (Model.Status_eqb _ Model.success),
             (Model.Status_eqb _ Model.success); repeat split; reflexivity.
  - use_shape (ViaApi_handleDecryptPreview_shape P components st).
    unfold App.resetStatus_next. cbn.
    destruct (Model.Status_eqb _ Model.success),
             (Model.Status_eqb _ Model.success); repeat split; reflexivity.
Qed.

(** X7: [handleGenerateKey] never touches the stored components: what
    an earlier encryption returned is still stored, and still drawn by
    the Encryptor card, after a new session has put the encrypt pipeline
    back on its initial record. *)
Theorem handleGenerateKey_keeps_components
    (P : Model.Platform) (simulateEavesdropper : bool) (st : Model.AppState) :
  let keeps after :=
    Model.cryptoComponents after = Model.cryptoComponents st
    /\ Cards.Encryptor_outputs_shown after = Cards.Encryptor_outputs_shown st
    /\ Model.encrypt (Model.processStatus after)
       = Model.entry Model.idle "Waiting for file..." in
  keeps (Model.final (App.Direct.handleGenerateKey P simulateEavesdropper) st)
  /\ keeps (Model.final (App.ViaApi.handleGenerateKey P simulateEavesdropper) st).
Proof.
  intros keeps. subst keeps. cbv beta.
  destruct (String.eqb (Model.currentUser st) (Model.peerUser st)) eqn:U.
  - destruct (same_user_shape P simulateEavesdropper st U) as [E1 E2].
    unfold Model.final. rewrite E1, E2. repeat split; reflexivity.
  - split.
    + use_shape (Direct_handleGenerateKey_shape P simulateEavesdropper st U).
      repeat split; reflexivity.
    + use_shape (ViaApi_handleGenerateKey_shape P simulateEavesdropper st U).
      repeat split; reflexivity.
Qed.

(* ------------------------------------------------------------------ *)
(** ** What the handlers make of each kind of answer *)

Section AnswerFacts.
Import Js Model App View Cards.
Variable P : Platform.

Lemma Direct_encrypt_error_clears (f : File) (st : AppState) :
  status (encrypt (processStatus (final (Direct.handleEncrypt P f) st))) = error ->
  cryptoComponents (final (Direct.handleEncrypt P f) st) = empty_components.
Proof. run_js; intros H; try discriminate H; reflexivity. Qed.

Lemma ViaApi_encrypt_error_clears (f : File) (st : AppState) :
  status (encrypt (processStatus (final (ViaApi.handleEncrypt P f) st))) = error ->
  cryptoComponents (final (ViaApi.handleEncrypt P f) st) = empty_components.
Proof. run_js; intros H; try discriminate H; reflexivity. Qed.

Lemma encrypt_2xx (f : File) (st : AppState) (r : Response) (data : value) :
  (forall req, network P req = Responded r) ->
  ok r = true ->
  res_text r <> "" ->
  JSON_parse P (res_text r) = inl data ->
  encrypt (processStatus (final (Direct.handleEncrypt P f) st))
  = entry success "File encrypted. Components ready."
  /\ encrypt (processStatus (final (ViaApi.handleEncrypt P f) st))
     = entry success "File encrypted. Components ready.".
Proof.
  intros Hn Hok Ht Hp. apply String.eqb_neq in Ht.
  unfold_js. cbn. rewrite !Hn. cbn. rewrite Hok, Ht, Hp. cbn.
  split; reflexivity.
Qed.

Lemma preview_2xx (c : Components) (st : AppState) (r : Response)
    (data p : value) :
  (forall req, network P req = Responded r) ->
  ok r = true ->
  res_text r <> "" ->
  JSON_parse P (res_text r) = inl data ->
  getProp data "plaintext" = Some p ->
  let d := final (Direct.handleDecryptPreview P c) st in
  let a := final (ViaApi.handleDecryptPreview P c) st in
  decrypt (processStatus d) = entry success "Decryption preview successful."
  /\ decryptedPreview d = p
  /\ decrypt (processStatus a) = entry success "Decryption preview successful."
  /\ decryptedPreview a = or_else p (JStr "").
Proof.
  intros Hn Hok Ht Hp Hg. apply String.eqb_neq in Ht.
  unfold_js. cbn. rewrite !Hn. cbn. rewrite Hok, Ht, Hp. cbn. rewrite Hg. cbn.
  repeat split; reflexivity.
Qed.

Lemma session_2xx (sim : bool) (st : AppState) (r : Response) :
  String.eqb (currentUser st) (peerUser st) = false ->
  (forall req, network P req = Responded r) ->
  ok r = true ->
  session (processStatus (final (ViaApi.handleGenerateKey P sim) st))
  = entry success "Secure session established!"
  /\ session (processStatus (final (Direct.handleGenerateKey P sim) st))
     = match JSON_parse P (res_text r) with
       | inl _ => entry success "Secure session established!"
       | inr _ => entry error "Network error: Could not connect to server."
       end.
Proof.
  intros Hu Hn Hok. unfold_js. cbn. rewrite Hu. cbn. rewrite !Hn. cbn.
  rewrite Hok. cbn. repeat (split_match; cbn); split; reflexivity.
Qed.

Lemma session_offline (sim : bool) (st : AppState) (msg : string) :
  String.eqb (currentUser st) (peerUser st) = false ->
  (forall req, network P req = NetworkFailure msg) ->
  session (processStatus (final (Direct.handleGenerateKey P sim) st))
  = entry error "Network error: Could not connect to server."
  /\ session (processStatus (final (ViaApi.handleGenerateKey P sim) st))
     = entry error (or_text msg "Key establishment failed.").
Proof.
  intros Hu Hn. unfold_js. cbn. rewrite Hu. cbn. rewrite !Hn. cbn.
  unfold or_text, guarded2, guarded, field, and_then; cbn.
  destruct (String.eqb msg ""); cbn; split; reflexivity.
Qed.

Lemma encrypt_offline (f : File) (st : AppState) (msg : string) :
  (forall req, network P req = NetworkFailure msg) ->
  encrypt (processStatus (final (Direct.handleEncrypt P f) st))
  = entry error msg
  /\ encrypt (processStatus (final (ViaApi.handleEncrypt P f) st))
     = entry error (or_text msg "Encryption failed.").
Proof.
  intros Hn. unfold_js. cbn. rewrite !Hn. cbn.
  unfold or_text, ViaApi.derive_message, guarded2, guarded, field, and_then,
    or_else; cbn.
  destruct (String.eqb msg ""); cbn; split; reflexivity.
Qed.

Lemma preview_offline (c : Components) (st : AppState) (msg : string) :
  (forall req, network P req = NetworkFailure msg) ->
  decrypt (processStatus (final (Direct.handleDecryptPreview P c) st))
  = entry error msg
  /\ decrypt (processStatus (final (ViaApi.handleDecryptPreview P c) st))
     = entry error (or_text msg "Decryption failed.").
Proof.
  intros Hn. unfold_js. cbn. rewrite !Hn. cbn.
  unfold or_text, ViaApi.derive_message, guarded2, guarded, field, and_then,
    or_else; cbn.
  destruct (String.eqb msg ""); cbn; split; reflexivity.
Qed.

Lemma ViaApi_raw_body (sim : bool) (f : File) (c : Components)
    (st : AppState) (r : Response) :
  (forall req, network P req = Responded r) ->
  ok r = false ->
  encrypt (processStatus (final (ViaApi.handleEncrypt P f) st))
  = entry error (or_text (res_text r) "Encryption failed.")
  /\ decrypt (processStatus (final (ViaApi.handleDecryptPreview P c) st))
     = entry error (or_text (res_text r) "Decryption failed.")
  /\ (String.eqb (currentUser st) (peerUser st) = false ->
      Z.eqb (res_status r) 403 = false ->
      session (processStatus (final (ViaApi.handleGenerateKey P sim) st))
      = entry error (or_text (res_text r) "Key establishment failed.")).
Proof.
  intros Hn Hok. split; [|split].
  - unfold_js. cbn. rewrite !Hn. cbn. rewrite Hok. cbn.
    unfold or_text, ViaApi.derive_message, guarded2, guarded, field, and_then,
      or_else; cbn.
    repeat (split_match; cbn); try (simpl in *; congruence); reflexivity.
  - unfold_js. cbn. rewrite !Hn. cbn. rewrite Hok. cbn.
    unfold or_text, ViaApi.derive_message, guarded2, guarded, field, and_then,
      or_else; cbn.
    repeat (split_match; cbn); try (simpl in *; congruence); reflexivity.
  - intros Hu H403. unfold_js. cbn. rewrite Hu. cbn. rewrite !Hn. cbn.
    rewrite Hok. cbn.
    unfold or_text, is_number, guarded2, guarded, field, and_then, or_else; cbn.
    repeat (split_match; cbn); try (simpl in *; congruence); reflexivity.
Qed.


End AnswerFacts.

(* ------------------------------------------------------------------ *)
(** ** Downloads *)

Section DownloadFacts.
Import Js Model App View Cards.
Variable P : Platform.

Lemma handleDownload_run (u p : string) (c : Components) (st : AppState) :
  let req := mkRequest "http://localhost:8000/api/v1/decrypt-file" "POST"
               [("user_id", FormText u); ("peer_id", FormText p);
                ("nonce", FormText (nonce c)); ("tag", FormText (tag c));
                ("ciphertext", FormText (ciphertext c))] in
  run (handleDownload P u p c) st =
  (Returned tt,
   mkWorld st
     (EvFetch req st ::
      match network P req with
      | Responded r =>
          if ok r then [EvSave "decrypted_file" (res_text r)]
          else [EvAlert
                  ("Error: " ++
                   match JSON_parse P (res_text r) with
                   | inl errData =>
                       match getProp errData "detail" with
                       | Some d => error_text P (or_else d (JStr "Download failed"))
                       | None => null_property_message P "detail"
                       end
                   | inr msg => msg
                   end)]
      | NetworkFailure msg => [EvAlert ("Error: " ++ msg)]
      end)).
Proof.
  destruct st as [cu pu l ps cc dp].
  unfold error_text.
  run_js; try (simpl in *; congruence); reflexivity.
Qed.


End DownloadFacts.

(* ------------------------------------------------------------------ *)
(** ** More on config.js, the helpers and the cards *)

Section MoreFacts.
Import Js Model App View Cards.

Lemma strip_trailing_slashes_prefix (s : string) :
  exists t, s = Config.strip_trailing_slashes s ++ t
            /\ t = Config.slashes (String.length t).
Proof.
  induction s as [|c r [t [IH Ht]]].
  - exists "". split; reflexivity.
  - simpl. destruct (Config.strip_trailing_slashes r) as [|a b] eqn:E.
    + destruct (Config.is_slash c) eqn:Hc.
      * exists (String c r). split; [reflexivity|].
        apply Ascii.eqb_eq in Hc. subst c.
        simpl in IH. subst r. simpl. f_equal. exact Ht.
      * exists t. simpl in IH. subst r. split; [reflexivity | exact Ht].
    + exists t. split; [simpl; f_equal; exact IH | exact Ht].
Qed.

Lemma strip_api_prefix_prefix (s : string) :
  exists t, s = Config.strip_api_prefix s ++ t
            /\ (t = "" \/ Config.matches_api_prefix t = true).
Proof.
  induction s as [|c r [t [IH Ht]]].
  - exists "". split; [reflexivity | left; reflexivity].
  - cbn [Config.strip_api_prefix].
    destruct (Config.matches_api_prefix (String c r)) eqn:E.
    + exists (String c r). split; [reflexivity | right; exact E].
    + exists t. split; [simpl; f_equal; exact IH | exact Ht].
Qed.

Lemma raw_nonempty (s : string) : s <> "" -> Config.raw (Some s) = s.
Proof. destruct s; [contradiction | reflexivity]. Qed.

Lemma type_agrees_eq (x : ProcessStatus) :
  type_agrees x = true -> type x = Some (status x).
Proof.
  unfold type_agrees. destruct x as [s [t|] m]; simpl; [|discriminate].
  destruct t, s; simpl; intros H; try discriminate H; reflexivity.
Qed.

Lemma handleChange_commutes (k1 k2 v1 v2 : string) (c : Components) :
  k1 <> k2 ->
  handleChange k1 v1 (handleChange k2 v2 c)
  = handleChange k2 v2 (handleChange k1 v1 c).
Proof.
  intros H. unfold handleChange.
  destruct (String.eqb_spec k1 "nonce"), (String.eqb_spec k1 "tag"),
           (String.eqb_spec k1 "ciphertext"),
           (String.eqb_spec k2 "nonce"), (String.eqb_spec k2 "tag"),
           (String.eqb_spec k2 "ciphertext");
    subst; try congruence; try discriminate; reflexivity.
Qed.

Lemma handleChange_overwrites (k v v' : string) (c : Components) :
  handleChange k v (handleChange k v' c) = handleChange k v c.
Proof.
  unfold handleChange.
  destruct (String.eqb k "nonce"); [reflexivity|].
  destruct (String.eqb k "tag"); [reflexivity|].
  destruct (String.eqb k "ciphertext"); reflexivity.
Qed.

Lemma api_requests (P : Platform) (u p n t c : string) (sim : bool)
    (f : File) (st : AppState) :
  map url (requests (Api.initiateSession P u p sim) st)
  = [Api.API_URL P ++ "/api/v1/session/initiate"]
  /\ map url (requests (Api.encryptFile P u p f) st)
     = [Api.API_URL P ++ "/api/v1/encrypt-file"]
  /\ map url (requests (Api.decryptFilePreview P u p n t c) st)
     = [Api.API_URL P ++ "/api/v1/decrypt-file-preview"]
  /\ map url (requests (Api.decryptFileDownload P u p n t c) st)
     = [Api.API_URL P ++ "/api/v1/decrypt-file"].
Proof.
  split; [|split; [|split]]; run_js; reflexivity.
Qed.

End MoreFacts.

(** X18: [normalize] only ever removes from the end of its input: the
    input is the result followed by at most one API prefix (in any
    letter case) and then by slashes only. *)
Theorem normalize_removes_a_suffix_only (s : string) :
  exists prefix rest : string,
    s = Config.normalize s ++ prefix ++ rest
    /\ (prefix = "" \/ Config.matches_api_prefix prefix = true)
    /\ rest = Config.slashes (String.length rest).
Proof.
  unfold Config.normalize.
  destruct (strip_trailing_slashes_prefix s) as [rest [Hs Hr]].
  destruct (strip_api_prefix_prefix (Config.strip_trailing_slashes s))
    as [prefix [Hp Hm]].
  exists prefix, rest. split; [|split; assumption].
  rewrite <- app_assoc, <- Hp. exact Hs.
Qed.

(* ------------------------------------------------------------------ *)
(** ** Further properties of the handlers, the helpers and the cards *)

(** X8: an encryption that ends in [error] (either revision) leaves the
    empty triple stored, so the Encryptor card draws no outputs: what an
    earlier encryption returned is gone. *)
Theorem failed_encryption_clears_components
    (P : Model.Platform) (file : Model.File) (st : Model.AppState) :
  let cleared after :=
    Model.status (Model.encrypt (Model.processStatus after)) = Model.error ->
    Model.cryptoComponents after = Model.empty_components
    /\ Cards.Encryptor_outputs_shown after = Some false in
  cleared (Model.final (App.Direct.handleEncrypt P file) st)
  /\ cleared (Model.final (App.ViaApi.handleEncrypt P file) st).
Proof.
  intros cleared. subst cleared. cbv beta. split; intros H.
  - pose proof (Direct_encrypt_error_clears P file st H) as E.
    unfold Cards.Encryptor_outputs_shown. rewrite E. split; reflexivity.
  - pose proof (ViaApi_encrypt_error_clears P file st H) as E.
    unfold Cards.Encryptor_outputs_shown. rewrite E. split; reflexivity.
Qed.

Lemma failed_encryption_clears_components_witness :
  Model.cryptoComponents
    (Model.final (App.ViaApi.handleEncrypt Scenarios.broken Scenarios.notes)
                 Scenarios.all_done)
  = Model.empty_components
  /\ Cards.Encryptor_outputs_shown
       (Model.final (App.ViaApi.handleEncrypt Scenarios.broken Scenarios.notes)
                    Scenarios.all_done)
     = Some false.
Proof.
  apply (proj2 (failed_encryption_clears_components
                  Scenarios.broken Scenarios.notes Scenarios.all_done)).
  vm_compute. reflexivity.
Defined.

(** X9: when the server answers the encrypt request with a 2xx and a
    non-empty body that parses, both revisions end with the encrypt
    pipeline in [success] and store the parsed value as it is, whatever
    its shape. *)
Theorem encryption_stores_answer_unchanged
    (P : Model.Platform) (file : Model.File) (st : Model.AppState)
    (r : Model.Response) (data : Js.value) :
  (forall req, Model.network P req = Model.Responded r) ->
  Model.ok r = true ->
  Model.res_text r <> "" ->
  Model.JSON_parse P (Model.res_text r) = inl data ->
  let stored after :=
    Model.encrypt (Model.processStatus after)
    = Model.entry Model.success "File encrypted. Components ready."
    /\ Model.cryptoComponents after = data in
  stored (Model.final (App.Direct.handleEncrypt P file) st)
  /\ stored (Model.final (App.ViaApi.handleEncrypt P file) st).
Proof.
  intros Hn Hok Ht Hp stored. subst stored. cbv beta.
  destruct (encrypt_2xx P file st r data Hn Hok Ht Hp) as [S1 S2].
  destruct (handleEncrypt_stores_data P file st r data Hn Hok Ht Hp) as [C2 C1].
  repeat split; assumption.
Qed.

Lemma encryption_stores_answer_unchanged_witness :
  Model.cryptoComponents
    (Model.final (App.ViaApi.handleEncrypt Samples.encrypting Scenarios.notes)
                 Model.initial_state)
  = Samples.triple_value.
Proof.
  apply (encryption_stores_answer_unchanged
           Samples.encrypting Scenarios.notes Model.initial_state
           (Model.mkResponse 200 Samples.triple_body) Samples.triple_value).
  - intros req. reflexivity.
  - reflexivity.
  - vm_compute. discriminate.
  - vm_compute. reflexivity.
Defined.

(** X10: when the server answers the preview request with a 2xx and a
    non-empty body that parses to a value with [plaintext] [p], both
    revisions end with the decrypt pipeline in [success]; the first
    revision shows [p] as it is (so [undefined] when the body has no
    [plaintext]), the second shows [p || '']. *)
Theorem preview_shows_plaintext
    (P : Model.Platform) (components : Model.Components) (st : Model.AppState)
    (r : Model.Response) (data p : Js.value) :
  (forall req, Model.network P req = Model.Responded r) ->
  Model.ok r = true ->
  Model.res_text r <> "" ->
  Model.JSON_parse P (Model.res_text r) = inl data ->
  Js.getProp data "plaintext" = Some p ->
  let d := Model.final (App.Direct.handleDecryptPreview P components) st in
  let a := Model.final (App.ViaApi.handleDecryptPreview P components) st in
  Model.decrypt (Model.processStatus d)
  = Model.entry Model.success "Decryption preview successful."
  /\ Model.decryptedPreview d = p
  /\ Model.decrypt (Model.processStatus a)
     = Model.entry Model.success "Decryption preview successful."
  /\ Model.decryptedPreview a = Js.or_else p (Js.JStr "").
Proof.
  intros Hn Hok Ht Hp Hg. exact (preview_2xx P components st r data p Hn Hok Ht Hp Hg).
Qed.

Lemma preview_shows_plaintext_witness :
  Model.decryptedPreview
    (Model.final (App.ViaApi.handleDecryptPreview Samples.hello Scenarios.triple)
                 Model.initial_state)
  = Js.JStr "hello".
Proof.
  apply (preview_shows_plaintext
           Samples.hello Scenarios.triple Model.initial_state
           (Model.mkResponse 200 Samples.hello_body)
           (Js.JObj [("plaintext", Js.JStr "hello")]) (Js.JStr "hello")).
  - intros req. reflexivity.
  - reflexivity.
  - vm_compute. discriminate.
  - vm_compute. reflexivity.
  - reflexivity.
Defined.

(** X11: for two different users and a 2xx answer to the session
    request, the second revision ends in [success] whatever the body is;
    the first ends in [success] only if the body parses as JSON, and
    otherwise in [error] with "Network error: Could not connect to
    server.". *)
Theorem session_success_and_the_body
    (P : Model.Platform) (simulateEavesdropper : bool) (st : Model.AppState)
    (r : Model.Response) :
  String.eqb (Model.currentUser st) (Model.peerUser st) = false ->
  (forall req, Model.network P req = Model.Responded r) ->
  Model.ok r = true ->
  Model.session
    (Model.processStatus
       (Model.final (App.ViaApi.handleGenerateKey P simulateEavesdropper) st))
  = Model.entry Model.success "Secure session established!"
  /\ Model.session
       (Model.processStatus
          (Model.final (App.Direct.handleGenerateKey P simulateEavesdropper) st))
     = match Model.JSON_parse P (Model.res_text r) with
       | inl _ => Model.entry Model.success "Secure session established!"
       | inr _ =>
           Model.entry Model.error "Network error: Could not connect to server."
       end.
Proof.
  intros Hu Hn Hok. exact (session_2xx P simulateEavesdropper st r Hu Hn Hok).
Qed.

Lemma session_success_and_the_body_witness :
  Model.status
    (Model.session
       (Model.processStatus
          (Model.final (App.ViaApi.handleGenerateKey Scenarios.chatty false)
                       Model.initial_state)))
  = Model.success
  /\ Model.status
       (Model.session
          (Model.processStatus
             (Model.final (App.Direct.handleGenerateKey Scenarios.chatty false)
                          Model.initial_state)))
     = Model.error.
Proof.
  destruct (session_success_and_the_body
              Scenarios.chatty false Model.initial_state
              (Model.mkResponse 200 "hello") eq_refl
              (fun _ => eq_refl) eq_refl) as [Ha Hd].
  rewrite Ha, Hd. split; reflexivity.
Defined.

(** X12: when [fetch] rejects with message [msg], every handler ends in
    [error]; the first revision shows the fixed text "Network error:
    Could not connect to server." for the session and [msg] itself for
    encrypt and preview; the second shows [msg], or its own fallback
    text when [msg] is empty. *)
Theorem transport_failure_messages
    (P : Model.Platform) (simulateEavesdropper : bool) (file : Model.File)
    (components : Model.Components) (st : Model.AppState) (msg : string) :
  (forall req, Model.network P req = Model.NetworkFailure msg) ->
  (String.eqb (Model.currentUser st) (Model.peerUser st) = false ->
   Model.session
     (Model.processStatus
        (Model.final (App.Direct.handleGenerateKey P simulateEavesdropper) st))
   = Model.entry Model.error "Network error: Could not connect to server."
   /\ Model.session
        (Model.processStatus
           (Model.final (App.ViaApi.handleGenerateKey P simulateEavesdropper) st))
      = Model.entry Model.error (Cards.or_text msg "Key establishment failed."))
  /\ Model.encrypt
       (Model.processStatus (Model.final (App.Direct.handleEncrypt P file) st))
     = Model.entry Model.error msg
  /\ Model.encrypt
       (Model.processStatus (Model.final (App.ViaApi.handleEncrypt P file) st))
     = Model.entry Model.error (Cards.or_text msg "Encryption failed.")
  /\ Model.decrypt
       (Model.processStatus
          (Model.final (App.Direct.handleDecryptPreview P components) st))
     = Model.entry Model.error msg
  /\ Model.decrypt
       (Model.processStatus
          (Model.final (App.ViaApi.handleDecryptPreview P components) st))
     = Model.entry Model.error (Cards.or_text msg "Decryption failed.").
Proof.
  intros Hn.
  destruct (encrypt_offline P file st msg Hn) as [E1 E2].
  destruct (preview_offline P components st msg Hn) as [D1 D2].
  split; [intros Hu; exact (session_offline P simulateEavesdropper st msg Hu Hn)|].
  repeat split; assumption.
Qed.

Lemma transport_failure_messages_witness :
  Model.encrypt
    (Model.processStatus
       (Model.final (App.ViaApi.handleEncrypt Scenarios.offline Scenarios.notes)
                    Model.initial_state))
  = Model.entry Model.error "Failed to fetch".
Proof.
  exact (proj1 (proj2 (proj2 (transport_failure_messages
                                Scenarios.offline false Scenarios.notes
                                Scenarios.triple Model.initial_state
                                "Failed to fetch" (fun _ => eq_refl))))).
Defined.

(** X13: on a non-2xx answer the second revision shows the raw text of
    the body as the message (its own fallback text when the body is
    empty): for encrypt and preview always, for the session when the
    status is not 403. *)
Theorem second_revision_shows_raw_body
    (P : Model.Platform) (simulateEavesdropper : bool) (file : Model.File)
    (components : Model.Components) (st : Model.AppState) (r : Model.Response) :
  (forall req, Model.network P req = Model.Responded r) ->
  Model.ok r = false ->
  Model.encrypt
    (Model.processStatus (Model.final (App.ViaApi.handleEncrypt P file) st))
  = Model.entry Model.error (Cards.or_text (Model.res_text r) "Encryption failed.")
  /\ Model.decrypt
       (Model.processStatus
          (Model.final (App.ViaApi.handleDecryptPreview P components) st))
     = Model.entry Model.error
         (Cards.or_text (Model.res_text r) "Decryption failed.")
  /\ (String.eqb (Model.currentUser st) (Model.peerUser st) = false ->
      Z.eqb (Model.res_status r) 403 = false ->
      Model.session
        (Model.processStatus
           (Model.final (App.ViaApi.handleGenerateKey P simulateEavesdropper) st))
      = Model.entry Model.error
          (Cards.or_text (Model.res_text r) "Key establishment failed.")).
Proof.
  intros Hn Hok.
  exact (ViaApi_raw_body P simulateEavesdropper file components st r Hn Hok).
Qed.

Lemma second_revision_shows_raw_body_witness :
  Model.session
    (Model.processStatus
       (Model.final (App.ViaApi.handleGenerateKey Scenarios.broken false)
                    Model.initial_state))
  = Model.entry Model.error "oops".
Proof.
  exact (proj2 (proj2 (second_revision_shows_raw_body
                         Scenarios.broken false Scenarios.notes Scenarios.triple
                         Model.initial_state (Model.mkResponse 500 "oops")
                         (fun _ => eq_refl) eq_refl)) eq_refl eq_refl).
Defined.



(** X15: [handleDownload] of the Decryptor card never lets an exception
    out and never changes the state of [App]; it issues one request to
    [/decrypt-file] with the five fields as given, and then either saves
    the body of a 2xx answer as [decrypted_file] or raises one alert
    that starts with "Error: ", never both. *)
Theorem handleDownload_saves_or_alerts
    (P : Model.Platform) (currentUser peerUser : string)
    (components : Model.Components) (st : Model.AppState) :
  let m := View.handleDownload P currentUser peerUser components in
  let req :=
    Model.mkRequest "http://localhost:8000/api/v1/decrypt-file" "POST"
      [("user_id", Model.FormText currentUser);
       ("peer_id", Model.FormText peerUser);
       ("nonce", Model.FormText (Model.nonce components));
       ("tag", Model.FormText (Model.tag components));
       ("ciphertext", Model.FormText (Model.ciphertext components))] in
  fst (Model.run m st) = Model.Returned tt
  /\ Model.final m st = st
  /\ exists last : Model.Event,
       Model.events m st = [Model.EvFetch req st; last]
       /\ match Model.network P req with
          | Model.Responded r =>
              if Model.ok r
              then last = Model.EvSave "decrypted_file" (Model.res_text r)
              else exists msg, last = Model.EvAlert ("Error: " ++ msg)
          | Model.NetworkFailure msg => last = Model.EvAlert ("Error: " ++ msg)
          end.
Proof.
  intros m req. subst m req.
  pose proof (handleDownload_run P currentUser peerUser components st) as E.
  cbv zeta in E. unfold Model.final, Model.events. rewrite E.
  cbn [fst snd Model.state Model.trace].
  split; [reflexivity | split; [reflexivity|]].
  match goal with
  | |- context [Model.network P ?q] => destruct (Model.network P q) as [r|msg]
  end.
  - destruct (Model.ok r).
    + eexists. split; reflexivity.
    + eexists. split; [reflexivity | eexists; reflexivity].
  - eexists. split; reflexivity.
Qed.



(** X17: when the configured root is some [root] followed by one API
    prefix (in any letter case) and any number of slashes, [API_URL] is
    [root], and each of the four helpers of api.js sends its one request
    to [root] followed by its own path. *)
Theorem endpoints_use_normalized_root
    (P : Model.Platform) (root prefix : string) (k : nat)
    (user_id peer_id nonce tag ciphertext : string)
    (simulate_eavesdropper : bool) (file : Model.File) (st : Model.AppState) :
  Model.VITE_API_URL P = Some (root ++ prefix ++ Config.slashes k) ->
  Config.matches_api_prefix prefix = true ->
  Api.API_URL P = root
  /\ map Model.url
       (Model.requests
          (Api.initiateSession P user_id peer_id simulate_eavesdropper) st)
     = [root ++ "/api/v1/session/initiate"]
  /\ map Model.url (Model.requests (Api.encryptFile P user_id peer_id file) st)
     = [root ++ "/api/v1/encrypt-file"]
  /\ map Model.url
       (Model.requests
          (Api.decryptFilePreview P user_id peer_id nonce tag ciphertext) st)
     = [root ++ "/api/v1/decrypt-file-preview"]
  /\ map Model.url
       (Model.requests
          (Api.decryptFileDownload P user_id peer_id nonce tag ciphertext) st)
     = [root ++ "/api/v1/decrypt-file"].
Proof.
  intros Henv Hm.
  assert (Hroot : Api.API_URL P = root).
  { unfold Api.API_URL, Config.API_URL. rewrite Henv.
    rewrite raw_nonempty.
    - apply normalize_strips_one_prefix. exact Hm.
    - intros E. destruct root; [|discriminate E].
      destruct prefix; [discriminate Hm | discriminate E]. }
  split; [exact Hroot|].
  rewrite <- Hroot.
  exact (api_requests P user_id peer_id nonce tag ciphertext
           simulate_eavesdropper file st).
Qed.

Lemma endpoints_use_normalized_root_witness :
  Api.API_URL Samples.misconfigured = "https://qx.example"
  /\ map Model.url
       (Model.requests (Api.initiateSession Samples.misconfigured "Alice" "Bob" false)
                       Model.initial_state)
     = ["https://qx.example/api/v1/session/initiate"].
Proof.
  destruct (endpoints_use_normalized_root
              Samples.misconfigured "https://qx.example" "/API/V1" 2
              "Alice" "Bob" "n1" "t1" "c1" false Scenarios.notes
              Model.initial_state eq_refl eq_refl) as [H1 [H2 _]].
  split; [exact H1 | exact H2].
Defined.

(** X19: the two revisions of [handleGenerateKey] and of
    [handleDecryptPreview] send the same form fields, in the same order;
    when the normalised root is the default one they send the same
    requests. *)
Theorem revisions_send_same_fields
    (P : Model.Platform) (simulateEavesdropper : bool)
    (components : Model.Components) (st : Model.AppState) :
  let dk := Model.requests (App.Direct.handleGenerateKey P simulateEavesdropper) st in
  let ak := Model.requests (App.ViaApi.handleGenerateKey P simulateEavesdropper) st in
  let dp := Model.requests (App.Direct.handleDecryptPreview P components) st in
  let ap := Model.requests (App.ViaApi.handleDecryptPreview P components) st in
  map Model.body dk = map Model.body ak
  /\ map Model.body dp = map Model.body ap
  /\ (Api.API_URL P = "http://localhost:8000" -> dk = ak /\ dp = ap).
Proof.
  intros dk ak dp ap. subst dk ak dp ap.
  pose proof (preview_requests P components st) as Hp. cbv zeta in Hp.
  destruct Hp as [Ha Hd]. rewrite Hd, Ha. clear Hd Ha.
  destruct (String.eqb (Model.currentUser st) (Model.peerUser st)) eqn:U.
  - destruct (same_user_shape P simulateEavesdropper st U) as [E1 E2].
    unfold Model.requests, Model.events. rewrite E1, E2. cbn.
    split; [reflexivity | split; [reflexivity|]].
    intros H. rewrite H. split; reflexivity.
  - pose proof (Direct_handleGenerateKey_shape P simulateEavesdropper st U) as S1.
    pose proof (ViaApi_handleGenerateKey_shape P simulateEavesdropper st U) as S2.
    cbv zeta in S1, S2.
    destruct S1 as [x1 [_ E1]]. destruct S2 as [x2 [_ E2]].
    unfold Model.requests, Model.events. rewrite E1, E2. cbn.
    split; [reflexivity | split; [reflexivity|]].
    intros H. rewrite H. split; reflexivity.
Qed.

Lemma revisions_send_same_fields_witness :
  Model.requests (App.Direct.handleGenerateKey Scenarios.offline true)
                 Model.initial_state
  = Model.requests (App.ViaApi.handleGenerateKey Scenarios.offline true)
                   Model.initial_state.
Proof.
  apply (proj2 (proj2 (revisions_send_same_fields
                         Scenarios.offline true Scenarios.triple
                         Model.initial_state))).
  vm_compute. reflexivity.
Defined.

(** X20: in the Decryptor card, edits of two different fields commute
    and a second edit of a field replaces the first; so after the three
    fields have been typed, in whatever state the card was, the preview
    request carries exactly what was typed. *)
Theorem typed_fields_reach_the_request
    (P : Model.Platform) (k1 k2 v1 v2 : string) (n t c : string)
    (before : Model.Components) (st : Model.AppState) :
  let typed :=
    Cards.handleChange "ciphertext" c
      (Cards.handleChange "tag" t (Cards.handleChange "nonce" n before)) in
  (k1 <> k2 ->
   Cards.handleChange k1 v1 (Cards.handleChange k2 v2 before)
   = Cards.handleChange k2 v2 (Cards.handleChange k1 v1 before))
  /\ Cards.handleChange k1 v1 (Cards.handleChange k1 v2 before)
     = Cards.handleChange k1 v1 before
  /\ map Model.body
       (Model.requests (App.ViaApi.handleDecryptPreview P typed) st)
     = [[("user_id", Model.FormText (Model.currentUser st));
         ("peer_id", Model.FormText (Model.peerUser st));
         ("nonce", Model.FormText n);
         ("tag", Model.FormText t);
         ("ciphertext", Model.FormText c)]].
Proof.
  intros typed. subst typed.
  split; [apply handleChange_commutes|].
  split; [apply handleChange_overwrites|].
  use_shape (ViaApi_handleDecryptPreview_shape P
               (Cards.handleChange "ciphertext" c
                  (Cards.handleChange "tag" t
                     (Cards.handleChange "nonce" n before))) st).
  reflexivity.
Qed.

Lemma typed_fields_reach_the_request_witness :
  Cards.handleChange "tag" "t1"
    (Cards.handleChange "nonce" "n1" (Model.mkComponents "" "" ""))
  = Cards.handleChange "nonce" "n1"
      (Cards.handleChange "tag" "t1" (Model.mkComponents "" "" "")).
Proof.
  apply (proj1 (typed_fields_reach_the_request
                  Scenarios.offline "tag" "nonce" "t1" "n1" "n1" "t1" "c1"
                  (Model.mkComponents "" "" "") Model.initial_state)).
  discriminate.
Defined.

(** X21: how the resets compose.  Resetting twice for the same pipeline
    is resetting once; a reset for the session undoes any other; a reset
    for encrypt absorbs a reset for decrypt, before or after it; and a
    reset leaves every pipeline [idle] or [success], the decrypt pipeline
    always [idle], with [type] equal to [status]. *)
Theorem resets_compose (p q : Model.Pipeline) (prev : Model.Processes) :
  App.resetStatus_next p (App.resetStatus_next p prev)
  = App.resetStatus_next p prev
  /\ App.resetStatus_next Model.Session (App.resetStatus_next q prev)
     = Model.INITIAL_PROCESS_STATUS
  /\ App.resetStatus_next Model.Encrypt (App.resetStatus_next Model.Decrypt prev)
     = App.resetStatus_next Model.Encrypt prev
  /\ App.resetStatus_next Model.Decrypt (App.resetStatus_next Model.Encrypt prev)
     = App.resetStatus_next Model.Encrypt prev
  /\ Cards.quiet (Model.status (Model.pipeline q (App.resetStatus_next p prev)))
     = true
  /\ Model.decrypt (App.resetStatus_next p prev)
     = Model.entry Model.idle "Waiting for components..."
  /\ Cards.types_agree (App.resetStatus_next p prev) = true.
Proof.
  destruct prev as [[s1 t1 m1] [s2 t2 m2] [s3 t3 m3]].
  destruct p, q, s1, s2; repeat split; reflexivity.
Qed.

(** X22: when every record has its [type] equal to its [status], as the
    handlers leave them, [ConnectionVisual] draws the headline of the
    eavesdropper rank as [eavesdropper] and that of the loading rank as
    [loading], but that of the error rank as [idle], like the default
    one: the headline record of an error has no [type]. *)
Theorem error_headline_drawn_as_idle (ps : Model.Processes) :
  Cards.types_agree ps = true ->
  View.ConnectionVisual_type (View.getConnectionStatus ps)
  = match View.headline_status ps with
    | Model.eavesdropper => Model.eavesdropper
    | Model.loading => Model.loading
    | _ => Model.idle
    end.
Proof.
  intros H. unfold Cards.types_agree in H.
  apply andb_true_iff in H. destruct H as [H H3].
  apply andb_true_iff in H. destruct H as [H1 H2].
  apply type_agrees_eq in H1, H2, H3.
  destruct ps as [[s1 t1 m1] [s2 t2 m2] [s3 t3 m3]].
  simpl in H1, H2, H3. subst t1 t2 t3.
  destruct s1, s2, s3; reflexivity.
Qed.

Lemma error_headline_drawn_as_idle_witness :
  View.headline_status (Model.processStatus Samples.session_failed) = Model.error
  /\ View.ConnectionVisual_type
       (View.getConnectionStatus (Model.processStatus Samples.session_failed))
     = Model.idle.
Proof.
  split; [reflexivity|].
  exact (error_headline_drawn_as_idle
           (Model.processStatus Samples.session_failed) eq_refl).
Defined.
